(** * globalRecipe: selector building and style expansion

    A shallow embedding of [src/globalRecipe.ts].  The module exports one
    function, [globalRecipe], which turns a declarative description (base
    styles, per-state styles, per-variant-combination styles) into a
    sequence of calls to vanilla-extract's [globalStyle]; its helper
    [buildVariantSelector] builds the compound class selector of a variant
    choice.

    Conventions of the embedding:
    - the inputs are the values of the TypeScript types of the source,
      except that a choice may name any group and value and a style block
      any state, whether the table or the generator set has them or not;
    - the recipe's class-name table, its groups and the selector generators
      are plain objects: a [gmap] holds their own properties, and a read
      [o[key]] that finds no own property goes on to [Object.prototype],
      as [get_property] has it;
    - an object that the code enumerates ([Object.entries], [Object.keys])
      is given by the list of its own enumerable properties in the order
      in which the enumeration yields them; [Object_entries] computes that
      order from the order in which the properties were written;
    - [undefined] is [None] (or a constructor of its own in a sum type);
    - reading a property of [undefined], reading the [caller] or
      [arguments] of a built-in function, calling what is not a function
      and calling a method of [Object.prototype] that needs an object as
      [this] end in [Throw];
    - what the language leaves to the implementation (the function
      properties of [Object], the text of a native function) is a
      parameter, the class [Host];
    - [globalStyle] is external: a call appends to the log of calls, as the
      capturing mock of the test-suite does. *)

From stdpp Require Import base option list strings pretty gmap.

Set Warnings "-clear-no-such-hyp".

(** ** Completions and the registry *)

Inductive JSError : Type :=
  | TypeError (msg : string).

Inductive Completion (A : Type) : Type :=
  | Normal (a : A)
  | Throw (e : JSError).
Arguments Normal {A} a.
Arguments Throw {A} e.

#[global] Instance Completion_ret : MRet Completion := @Normal.
#[global] Instance Completion_bind : MBind Completion :=
  λ A B f m, match m with Normal a => f a | Throw e => Throw e end.

Definition completes {A} (c : Completion A) : Prop := ∃ a, c = Normal a.

(** ** Values of the language *)

(** What a plain object inherits from [Object.prototype] under a string
    key: the prototype itself (under [__proto__]), the [Object] constructor
    (under [constructor]), or one of the methods. *)
Inductive Intrinsic : Type :=
  | ObjectPrototype
  | ObjectConstructor
  | ObjectMethod (name : string).

#[global] Instance Intrinsic_eq_dec : EqDecision Intrinsic.
Proof. solve_decision. Defined.

(** The values that the code can meet: primitives, the intrinsic objects
    above, [Function.prototype], other native functions (known by their
    name), and the [String] object that [Object(s)] returns. *)
Inductive JSValue : Type :=
  | JUndefined
  | JNull
  | JBoolean (b : bool)
  | JNumber (n : N)
  | JString (s : string)
  | JIntrinsic (o : Intrinsic)
  | JFunctionPrototype
  | JNative (name : string)
  | JStringObject (s : string).

(** What the language leaves to the implementation. *)
Class Host : Type := {
  (** whether [Object] has a function property of that name ([assign],
      [keys], ...): the list grows with the editions of the language *)
  object_static : string → bool;
  (** the text that [Function.prototype.toString] gives for the native
      function of that name *)
  native_source : string → string;
}.

(** ** Data model *)

(** CSS payload: property values and at-rule blocks, passed through as is. *)
#[warnings="-register-all"] Inductive CSSValue : Type :=
  | CSSString (s : string)
  | CSSNumber (literal : string)
  | CSSBlock (entries : list (string * CSSValue)).

(** [GlobalStyleRule]: the own enumerable properties of a style object. *)
Definition GlobalStyleRule : Type := list (string * CSSValue).

(** [StyleRuleWithSelectors<TSelectors>]: a [GlobalStyleRule] intersected
    with an optional [selectors] object, each state of which holds a rule
    or [undefined] ([Partial]).  The two fields are what the destructuring
    [const { selectors, ...properties } = style] yields. *)
Record StyleRuleWithSelectors : Type := {
  properties : GlobalStyleRule;
  selectors : option (list (string * option GlobalStyleRule));
}.

(** A value of [VariantSelection]: [BooleanMap<keyof ...> | undefined]. *)
Inductive VariantValue : Type :=
  | VUndefined
  | VString (s : string)
  | VBool (b : bool).

#[global] Instance VariantValue_eq_dec : EqDecision VariantValue.
Proof. solve_decision. Defined.

Definition VariantSelection : Type := list (string * VariantValue).

(** [RuntimeFn<Variants>] as far as the code reads it: [recipe.classNames]. *)
Module RuntimeFn.
Record ClassNames : Type := {
  base : string;
  variants : gmap string (gmap string string);
}.
Record t : Type := { classNames : ClassNames }.
End RuntimeFn.

(** [SelectorGenerators = Record<string, (variantSelector: string) => string>] *)
Abbreviation SelectorGenerators := (gmap string (string → string)).

Record CompoundVariant : Type := {
  variants : VariantSelection;
  style : StyleRuleWithSelectors;
}.

Record GlobalRecipeOptions : Type := {
  recipe : RuntimeFn.t;
  selectorGenerators : SelectorGenerators;
  base : option StyleRuleWithSelectors;
  compoundVariants : option (list CompoundVariant);
}.

(** ** The external registration facility *)

(** One call [globalStyle(selector, rule)].  The selector is what the
    generator returned: a string for the generators of the set. *)
Definition Registration : Type := JSValue * GlobalStyleRule.

(** Code that calls [globalStyle]: it reads and extends the log of calls,
    and what was logged stays logged when the code throws. *)
Definition JS (A : Type) : Type :=
  list Registration → Completion A * list Registration.

#[global] Instance JS_ret : MRet JS := λ A a log, (Normal a, log).
#[global] Instance JS_bind : MBind JS :=
  λ A B f m log,
    match m log with
    | (Normal a, log') => f a log'
    | (Throw e, log') => (Throw e, log')
    end.

Definition lift {A} (c : Completion A) : JS A := λ log, (c, log).

Definition globalStyle (selector : JSValue) (rule : GlobalStyleRule) : JS unit :=
  λ log, (Normal tt, log ++ [(selector, rule)]).

(** ** Property reads *)

(** The methods of [Object.prototype], with those of Annex B. *)
Definition object_prototype_methods : list string :=
  [ "hasOwnProperty"; "isPrototypeOf"; "propertyIsEnumerable";
    "toLocaleString"; "toString"; "valueOf";
    "__defineGetter__"; "__defineSetter__";
    "__lookupGetter__"; "__lookupSetter__" ].

(** The names of the properties of [Object.prototype]. *)
Definition object_prototype_names : list string :=
  "constructor" :: "__proto__" :: object_prototype_methods.

(** What a plain object inherits under [key]; the getter of [__proto__]
    gives the prototype of the object, which is [Object.prototype]. *)
Definition inherited (key : string) : option Intrinsic :=
  if decide (key = "constructor") then Some ObjectConstructor
  else if decide (key = "__proto__") then Some ObjectPrototype
  else if decide (key ∈ object_prototype_methods) then Some (ObjectMethod key)
  else None.

(** The outcome of a read [o[key]] on a plain object: an own property, a
    property of [Object.prototype], or [undefined]. *)
Inductive PropertyRead (A : Type) : Type :=
  | Own (a : A)
  | Inherited (o : Intrinsic)
  | Missing.
Arguments Own {A} a.
Arguments Inherited {A} o.
Arguments Missing {A}.

(** [o[key]] for a plain object with the own properties [own]. *)
Definition get_property {A} (own : gmap string A) (key : string) : PropertyRead A :=
  match own !! key with
  | Some a => Own a
  | None =>
      match inherited key with
      | Some o => Inherited o
      | None => Missing
      end
  end.

(** Truthiness of the outcome of a read: objects and functions are truthy,
    [undefined] is not. *)
Definition found {A} (o : PropertyRead A) : bool :=
  match o with
  | Missing => false
  | _ => true
  end.

(** The [name] and the [length] of the intrinsic functions. *)
Definition intrinsic_name (o : Intrinsic) : string :=
  match o with
  | ObjectPrototype => ""
  | ObjectConstructor => "Object"
  | ObjectMethod name => name
  end.

Definition intrinsic_length (o : Intrinsic) : N :=
  match o with
  | ObjectPrototype => 0
  | ObjectConstructor => 1
  | ObjectMethod name =>
      if decide (name ∈ ["__defineGetter__"; "__defineSetter__"]) then 2
      else if decide (name ∈ ["toLocaleString"; "toString"; "valueOf"]) then 0
      else 1
  end.

(** [Object.prototype[key]] as an object of prototype [proto] reads it, when
    nothing nearer on the prototype chain has the key. *)
Definition object_prototype_get (proto : JSValue) (key : string) : JSValue :=
  if decide (key = "__proto__") then proto
  else match inherited key with
       | Some o => JIntrinsic o
       | None => JUndefined
       end.

(** [f[key]] for an intrinsic function [f]: its own properties, then those
    of [Function.prototype] (where [caller] and [arguments] are accessors
    that throw), then those of [Object.prototype]. *)
Definition function_get `{Host} (f : Intrinsic) (key : string)
  : Completion JSValue :=
  if decide (key = "name") then Normal (JString (intrinsic_name f))
  else if decide (key = "length") then Normal (JNumber (intrinsic_length f))
  else if decide (f = ObjectConstructor ∧ key = "prototype")
  then Normal (JIntrinsic ObjectPrototype)
  else if bool_decide (f = ObjectConstructor) && object_static key
  then Normal (JNative key)
  else if decide (key ∈ ["apply"; "bind"; "call"; "toString"])
  then Normal (JNative key)
  else if decide (key = "constructor") then Normal (JNative "Function")
  else if decide (key ∈ ["caller"; "arguments"])
  then Throw (TypeError "restricted function property")
  else Normal (object_prototype_get JFunctionPrototype key).

(** [o[key]] for an intrinsic object [o]. *)
Definition intrinsic_get `{Host} (o : Intrinsic) (key : string)
  : Completion JSValue :=
  match o with
  | ObjectPrototype => Normal (object_prototype_get JNull key)
  | _ => function_get o key
  end.

(** [o[key]] where [o] is the outcome of a read on the class-name table. *)
Definition member `{Host} (o : PropertyRead (gmap string string)) (key : string)
  : Completion JSValue :=
  match o with
  | Own group =>
      match get_property group key with
      | Own className => Normal (JString className)
      | Inherited i => Normal (JIntrinsic i)
      | Missing => Normal JUndefined
      end
  | Inherited i => intrinsic_get i key
  | Missing => Throw (TypeError "Cannot read properties of undefined")
  end.

(** [i(arg)] for an intrinsic [i], called as a function ([this] is
    [undefined]) with a string: [Object(arg)] is a [String] object,
    [toString()] is ["[object Undefined]"], [isPrototypeOf(arg)] is [false]
    for a primitive, the other methods need an object as [this], and the
    prototype is no function. *)
Definition call_intrinsic (i : Intrinsic) (arg : string) : Completion JSValue :=
  match i with
  | ObjectPrototype => Throw (TypeError "is not a function")
  | ObjectConstructor => Normal (JStringObject arg)
  | ObjectMethod name =>
      if decide (name = "toString") then Normal (JString "[object Undefined]")
      else if decide (name = "isPrototypeOf") then Normal (JBoolean false)
      else Throw (TypeError "Cannot convert undefined or null to object")
  end.

(** [f(arg)] where [f] is the outcome of a read on the generator set. *)
Definition call (f : PropertyRead (string → string)) (arg : string)
  : Completion JSValue :=
  match f with
  | Own g => Normal (JString (g arg))
  | Inherited i => call_intrinsic i arg
  | Missing => Throw (TypeError "is not a function")
  end.

(** ** Other primitives used by the code *)

(** Truthiness of a string: only the empty string is falsy. *)
Definition truthy (s : string) : bool := bool_decide (s ≠ "").

(** [ToBoolean] *)
Definition ToBoolean (v : JSValue) : bool :=
  match v with
  | JUndefined | JNull => false
  | JBoolean b => b
  | JNumber n => bool_decide (n ≠ 0%N)
  | JString s => truthy s
  | _ => true
  end.

(** [ToString], as a template literal applies it. *)
Definition ToString `{Host} (v : JSValue) : string :=
  match v with
  | JUndefined => "undefined"
  | JNull => "null"
  | JBoolean b => if b then "true" else "false"
  | JNumber n => pretty n
  | JString s => s
  | JIntrinsic ObjectPrototype => "[object Object]"
  | JIntrinsic f => native_source (intrinsic_name f)
  | JFunctionPrototype => native_source ""
  | JNative name => native_source name
  | JStringObject s => s
  end.

(** [ToPropertyKey] on a variant value. *)
Definition ToPropertyKey (v : VariantValue) : string :=
  match v with
  | VUndefined => "undefined"
  | VString s => s
  | VBool true => "true"
  | VBool false => "false"
  end.

(** [parts.join(sep)] *)
Definition join (parts : list string) (sep : string) : string :=
  String.concat sep parts.

(** [for (const x of xs) body], the body updating the local state [S]. *)
Fixpoint for_of {A S} (xs : list A) (body : A → S → Completion S) (s : S)
  : Completion S :=
  match xs with
  | [] => Normal s
  | x :: xs' => s' ← body x s; for_of xs' body s'
  end.

(** [xs.forEach(body)], and a [for ... of] whose body only has effects. *)
Fixpoint forEach {A} (xs : list A) (body : A → JS unit) : JS unit :=
  match xs with
  | [] => mret tt
  | x :: xs' => body x;; forEach xs' body
  end.

(** The value of a decimal numeral. *)
Fixpoint digits_value (s : string) (acc : N) : option N :=
  match s with
  | "" => Some acc
  | String a s' =>
      d ← Ascii.is_nat a; digits_value s' (acc * 10 + N.of_nat d)%N
  end.

(** An array index: the canonical numeral of an integer below [2^32 - 1]. *)
Definition array_index (key : string) : option N :=
  match key with
  | "" => None
  | String a rest =>
      if decide (Ascii.is_nat a = Some 0 ∧ rest ≠ "") then None
      else n ← digits_value key 0;
           if decide (n < 2 ^ 32 - 1)%N then Some n else None
  end.

Fixpoint insert_indexed {A} (n : N) (x : A) (l : list (N * A))
  : list (N * A) :=
  match l with
  | [] => [(n, x)]
  | (m, y) :: l' =>
      if decide (n ≤ m)%N then (n, x) :: (m, y) :: l'
      else (m, y) :: insert_indexed n x l'
  end.

(** [Object.entries(o)] for an object whose own enumerable properties were
    written in the order [props]: the properties whose key is an array
    index in ascending order, then the others in the order written. *)
Definition Object_entries {A} (props : list (string * A)) : list (string * A) :=
  (snd <$> foldr (λ '(n, p) sorted, insert_indexed n p sorted) []
             (omap (λ p, n ← array_index p.1; Some (n, p)) props))
  ++ filter (λ p, array_index p.1 = None) props.

(** ** buildVariantSelector *)

Definition buildVariantSelector `{Host}
    (recipe : RuntimeFn.t) (variants : VariantSelection) : Completion string :=
  let classNames := RuntimeFn.variants (RuntimeFn.classNames recipe) in
  parts ← for_of variants (λ '(variantName, variantValue) parts,
    if decide (variantValue = VUndefined) then Normal parts (* continue *) else
    let variantClassNames := get_property classNames variantName in
    if negb (found variantClassNames) then Normal parts (* continue *) else
    let key :=
      match variantValue with
      | VBool b => if b then "true" else "false"
      | _ => ToPropertyKey variantValue
      end in
    className ← member variantClassNames key;
    if ToBoolean className
    then Normal (parts ++ ["." +:+ ToString className])
    else Normal parts) [];
  mret (join parts "").

(** ** globalRecipe *)

(** The closure [applyStyle] of [globalRecipe], with the [selectorGenerators]
    it captures as a parameter. *)
Definition applyStyle (selectorGenerators : SelectorGenerators)
    (classSelector : string) (style : StyleRuleWithSelectors) : JS unit :=
  let selectors := selectors style in
  let properties := properties style in
  (if bool_decide (0 < length properties) then
     selector ← lift (call (get_property selectorGenerators "&") classSelector);
     globalStyle selector properties
   else mret tt);;
  match selectors with
  | Some selectors =>
      forEach selectors (λ '(selectorKey, selectorStyle),
        let generator := get_property selectorGenerators selectorKey in
        match selectorStyle with
        | Some selectorStyle =>
            if found generator then
              selector ← lift (call generator classSelector);
              globalStyle selector selectorStyle
            else mret tt
        | None => mret tt
        end)
  | None => mret tt
  end.

Definition globalRecipe `{Host} (options : GlobalRecipeOptions) : JS unit :=
  let applyStyle := applyStyle (selectorGenerators options) in
  (match base options with
   | Some base =>
       applyStyle
         ("." +:+ RuntimeFn.base (RuntimeFn.classNames (recipe options))) base
   | None => mret tt
   end);;
  match compoundVariants options with
  | Some compoundVariants =>
      forEach compoundVariants (λ cv,
        variantSelector ← lift (buildVariantSelector (recipe options) (variants cv));
        if truthy variantSelector then applyStyle variantSelector (style cv)
        else mret tt)
  | None => mret tt
  end.

(** ** Specification-side definitions *)

(** The value token of a choice entry: none when it is unset, the tokens
    ["true"] and ["false"] for booleans. *)
Definition spec_token (value : VariantValue) : option string :=
  match value with
  | VUndefined => None
  | VString s => Some s
  | VBool b => Some (if b then "true" else "false")
  end.

(** The fragment of one choice entry: ["." + className] when the entry is
    set, its group is in the table and its token has a class name there (a
    class name being a non-empty string); none otherwise. *)
Definition spec_fragment (table : gmap string (gmap string string))
    (entry : string * VariantValue) : option string :=
  token ← spec_token entry.2;
  group ← table !! entry.1;
  className ← group !! token;
  if decide (className = "") then None else Some ("." +:+ className).

(** Concatenation with no separator. *)
Definition spec_concat (fragments : list string) : string :=
  foldr String.append "" fragments.

(** The names that a plain object inherits from [Object.prototype]. *)
Definition inherited_name (key : string) : Prop :=
  key ∈ object_prototype_names.

#[global] Instance inherited_name_dec key : Decision (inherited_name key).
Proof. unfold inherited_name. apply _. Defined.

(** A choice entry that leads to no read of an inherited property: it is
    unset, or its group name, when the table lacks it, and its value token,
    when the group lacks it, are no names of [Object.prototype]. *)
Definition no_inherited_read (table : gmap string (gmap string string))
    (entry : string * VariantValue) : Prop :=
  match spec_token entry.2 with
  | None => True
  | Some token =>
      match table !! entry.1 with
      | None => ¬ inherited_name entry.1
      | Some group => is_Some (group !! token) ∨ ¬ inherited_name token
      end
  end.

#[global] Instance no_inherited_read_dec table entry :
  Decision (no_inherited_read table entry).
Proof.
  unfold no_inherited_read.
  destruct (spec_token entry.2); [destruct (table !! entry.1)|]; apply _.
Defined.

(** A state of a nested mapping that leads to no read of an inherited
    property: its key, when the generator set lacks it, is no name of
    [Object.prototype]. *)
Definition no_inherited_state (generators : SelectorGenerators)
    (state : string * option GlobalStyleRule) : Prop :=
  is_Some (generators !! state.1) ∨ ¬ inherited_name state.1.

#[global] Instance no_inherited_state_dec generators state :
  Decision (no_inherited_state generators state).
Proof. unfold no_inherited_state. apply _. Defined.

(** The "self" registration of a style block: none when the block has no
    top-level property. *)
Definition spec_self_registration (generators : SelectorGenerators)
    (compoundSelector : string) (style : StyleRuleWithSelectors)
  : option Registration :=
  if decide (properties style = []) then None
  else generator ← generators !! "&";
       Some (JString (generator compoundSelector), properties style).

(** The registration of one entry of the nested state mapping: none when
    the state has no generator or its nested block is absent. *)
Definition spec_state_registration (generators : SelectorGenerators)
    (compoundSelector : string) (entry : string * option GlobalStyleRule)
  : option Registration :=
  generator ← generators !! entry.1;
  nestedBlock ← entry.2;
  Some (JString (generator compoundSelector), nestedBlock).

Definition spec_state_registrations (generators : SelectorGenerators)
    (compoundSelector : string) (style : StyleRuleWithSelectors)
  : list Registration :=
  omap (spec_state_registration generators compoundSelector)
       (default [] (selectors style)).

(** The registrations of one style block: "self" first, then the states in
    the order of the nested mapping. *)
Definition spec_block (generators : SelectorGenerators)
    (compoundSelector : string) (style : StyleRuleWithSelectors)
  : list Registration :=
  option_list (spec_self_registration generators compoundSelector style)
  ++ spec_state_registrations generators compoundSelector style.

(** A state entry that leads to a registration. *)
Definition registers (generators : SelectorGenerators)
    (entry : string * option GlobalStyleRule) : Prop :=
  is_Some (generators !! entry.1) ∧ is_Some entry.2.

#[global] Instance registers_dec generators entry :
  Decision (registers generators entry).
Proof. unfold registers. apply _. Defined.

(** What the loop body of [buildVariantSelector] pushes for one entry. *)
Definition entry_fragment `{Host} (table : gmap string (gmap string string))
    (entry : string * VariantValue) : Completion (option string) :=
  if decide (entry.2 = VUndefined) then Normal None else
  let group := get_property table entry.1 in
  if negb (found group) then Normal None else
  className ← member group (ToPropertyKey entry.2);
  Normal (if ToBoolean className
          then Some ("." +:+ ToString className) else None).

Fixpoint entry_fragments `{Host} (table : gmap string (gmap string string))
    (entries : VariantSelection) : Completion (list string) :=
  match entries with
  | [] => Normal []
  | entry :: entries =>
      fragment ← entry_fragment table entry;
      fragments ← entry_fragments table entries;
      Normal (option_list fragment ++ fragments)
  end.

(** A step of an invocation: the calls it makes, or the error it throws. *)
Definition Step : Type := Completion (list Registration).

(** The calls of a sequence of steps, up to the first one that throws, and
    the error it throws, if any. *)
Fixpoint run_steps (steps : list Step) : list Registration * option JSError :=
  match steps with
  | [] => ([], None)
  | Normal calls :: steps =>
      let '(more, error) := run_steps steps in (calls ++ more, error)
  | Throw e :: _ => ([], Some e)
  end.

(** The run that makes these calls and ends with that error, if any. *)
Definition outcome (result : list Registration * option JSError) : JS unit :=
  λ log, (match result.2 with None => Normal tt | Some e => Throw e end,
          log ++ result.1).

(** The step for the top-level properties of a style block. *)
Definition self_step (generators : SelectorGenerators)
    (classSelector : string) (style : StyleRuleWithSelectors) : Step :=
  if decide (properties style = []) then Normal []
  else selector ← call (get_property generators "&") classSelector;
       Normal [(selector, properties style)].

(** The step for one state of the nested mapping. *)
Definition state_step (generators : SelectorGenerators)
    (classSelector : string) (state : string * option GlobalStyleRule) : Step :=
  match state.2 with
  | Some nestedBlock =>
      let generator := get_property generators state.1 in
      if found generator then
        selector ← call generator classSelector;
        Normal [(selector, nestedBlock)]
      else Normal []
  | None => Normal []
  end.

(** The steps of one style block: "self" first, then the states in the
    order of the nested mapping. *)
Definition block_steps (generators : SelectorGenerators)
    (classSelector : string) (style : StyleRuleWithSelectors) : list Step :=
  self_step generators classSelector style
  :: (state_step generators classSelector <$> default [] (selectors style)).

(** The steps of one compound-variant entry: those of its style block when
    its selector is truthy. *)
Definition entry_steps `{Host} (r : RuntimeFn.t)
    (generators : SelectorGenerators) (entry : CompoundVariant) : list Step :=
  match buildVariantSelector r (variants entry) with
  | Normal variantSelector =>
      if truthy variantSelector
      then block_steps generators variantSelector (style entry) else []
  | Throw e => [Throw e]
  end.

(** The steps of one invocation: the base block, then the compound entries
    in array order. *)
Definition invocation_steps `{Host} (options : GlobalRecipeOptions)
  : list Step :=
  let classNames := RuntimeFn.classNames (recipe options) in
  let generators := selectorGenerators options in
  match base options with
  | Some style => block_steps generators ("." +:+ RuntimeFn.base classNames) style
  | None => []
  end
  ++ flat_map (entry_steps (recipe options) generators)
       (default [] (compoundVariants options)).

(** The number of calls for one expanded entry in the words of the
    overview: one for the "self" properties and one more per state tag of
    the nested state mapping. *)
Definition spec_calls_per_entry (entry : CompoundVariant) : nat :=
  1 + length (default [] (selectors (style entry))).

Definition sized_without_style : CompoundVariant :=
  {| variants := [("size", VString "sm")];
     style := {| properties := []; selectors := None |} |}.

Definition sized_with_absent_state : CompoundVariant :=
  {| variants := [("size", VString "sm")];
     style := {| properties := [("width", CSSString "16px")];
                 selectors := Some [("&:hover", None)] |} |}.

(** [framed m]: what [m] does is independent of the calls logged before
    it; it only appends to them. *)
Definition framed {A} (m : JS A) : Prop :=
  ∀ log, m log = ((m []).1, log ++ (m []).2).

(** The style blocks that one invocation hands to [applyStyle], each with
    its class selector, in the order of the calls: the base block when it
    is supplied, then the blocks of the compound entries whose selector is
    truthy. *)
Definition applied_blocks `{Host} (options : GlobalRecipeOptions)
  : list (string * StyleRuleWithSelectors) :=
  let classNames := RuntimeFn.classNames (recipe options) in
  option_list ((λ style, ("." +:+ RuntimeFn.base classNames, style))
               <$> base options)
  ++ omap (λ entry,
       match buildVariantSelector (recipe options) (variants entry) with
       | Normal variantSelector =>
           if truthy variantSelector
           then Some (variantSelector, style entry) else None
       | Throw _ => None
       end) (default [] (compoundVariants options)).

(** ** Data of the scenarios *)

(** A host with the function properties that ECMAScript 2023 gives to
    [Object], and the text of native functions as V8 prints it. *)
#[global] Instance es2023 : Host := {|
  object_static name :=
    bool_decide (name ∈
      [ "assign"; "create"; "defineProperties"; "defineProperty"; "entries";
        "freeze"; "fromEntries"; "getOwnPropertyDescriptor";
        "getOwnPropertyDescriptors"; "getOwnPropertyNames";
        "getOwnPropertySymbols"; "getPrototypeOf"; "hasOwn"; "is";
        "isExtensible"; "isFrozen"; "isSealed"; "keys"; "preventExtensions";
        "seal"; "setPrototypeOf"; "values" ]);
  native_source name := "function " +:+ name +:+ "() { [native code] }";
|}.

Definition button_recipe : RuntimeFn.t :=
  {| RuntimeFn.classNames := {|
       RuntimeFn.base := "button_base";
       RuntimeFn.variants :=
         {[ "size" := {[ "sm" := "button_size_sm"; "md" := "button_size_md" ]};
            "variant" := {[ "primary" := "button_variant_primary" ]};
            "disabled" := {[ "true" := "button_disabled_true";
                             "false" := "button_disabled_false" ]} ]} |} |}.

Definition svg_generators : SelectorGenerators :=
  {[ "&" := λ v, v +:+ " svg"; "&:hover" := λ v, v +:+ ":hover svg" ]}.

Definition blank_recipe : RuntimeFn.t :=
  {| RuntimeFn.classNames := {|
       RuntimeFn.base := "button_base";
       RuntimeFn.variants :=
         {[ "size" := {[ "sm" := "button_size_sm"; "md" := "" ]} ]} |} |}.

Definition sized_with_states : CompoundVariant :=
  {| variants := [("size", VString "sm")];
     style := {| properties := [("width", CSSString "16px")];
                 selectors := Some
                   [ ("&:hover", Some [("fill", CSSString "blue")]);
                     ("&:focus", Some [("outline", CSSString "none")]);
                     ("&:focus-visible", None) ] |} |}.

Definition sizes_recipe : RuntimeFn.t :=
  {| RuntimeFn.classNames := {|
       RuntimeFn.base := "btn";
       RuntimeFn.variants :=
         {[ "size" := {[ "sm" := "button_size_sm"; "md" := "button_size_md" ]}
         ]} |} |}.

Definition hover_generators : SelectorGenerators :=
  {[ "&:hover" := λ v, v +:+ ":hover svg" ]}.

Definition hover_only : CompoundVariant :=
  {| variants := [("size", VString "md")];
     style := {| properties := [];
                 selectors := Some [("&:hover", Some [])] |} |}.

Definition sized_options : GlobalRecipeOptions :=
  {| recipe := button_recipe; selectorGenerators := svg_generators;
     base := Some {| properties := [("pointerEvents", CSSString "none")];
                     selectors := None |};
     compoundVariants := Some [sized_with_states; hover_only] |}.

Definition hover_first_options : GlobalRecipeOptions :=
  {| recipe := button_recipe; selectorGenerators := hover_generators;
     base := None;
     compoundVariants := Some [hover_only; sized_with_states] |}.

Definition active_generators : SelectorGenerators :=
  <["&:active" := λ v, v +:+ ":active svg"]> svg_generators.

Definition blank_method_recipe : RuntimeFn.t :=
  {| RuntimeFn.classNames := {|
       RuntimeFn.base := "button_base";
       RuntimeFn.variants := {[ "size" := {[ "toString" := "" ]} ]} |} |}.

Definition no_method_recipe : RuntimeFn.t :=
  {| RuntimeFn.classNames := {|
       RuntimeFn.base := "button_base";
       RuntimeFn.variants :=
         <["size" := delete "toString" {[ "toString" := "" ]}]>
           {[ "size" := {[ "toString" := "" ]} ]} |} |}.

Definition indexed_recipe : RuntimeFn.t :=
  {| RuntimeFn.classNames := {|
       RuntimeFn.base := "grid_base";
       RuntimeFn.variants :=
         {[ "gap" := {[ "wide" := "grid_gap_wide" ]};
            "1" := {[ "on" := "grid_1_on" ]} ]} |} |}.

Definition inherited_states : StyleRuleWithSelectors :=
  {| properties := [];
     selectors := Some
       [ ("toString", Some [("fill", CSSString "blue")]);
         ("&:hover", Some [("fill", CSSString "red")]) ] |}.

Definition throwing_states : StyleRuleWithSelectors :=
  {| properties := [];
     selectors := Some
       [ ("hasOwnProperty", Some [("fill", CSSString "blue")]);
         ("&:hover", Some [("fill", CSSString "red")]) ] |}.

Definition checkbox_base : StyleRuleWithSelectors :=
  {| properties := [("display", CSSString "flex")];
     selectors := Some
       [ ("&:hover", Some [("opacity", CSSString "0.5")]);
         ("&:focus", Some [("outline", CSSString "none")]) ] |}.

(** A decidable proposition about closed data is settled by evaluation. *)
Ltac by_evaluation := refine (bool_decide_unpack _ _); vm_compute; exact I.

(** ** Facts about the primitives *)

Lemma append_nil_r (s : string) : s +:+ "" = s.
Proof.
  induction s as [|a s IH]; [done|].
  change (String a (s +:+ "") = String a s). by rewrite IH.
Qed.

Lemma append_assoc (s1 s2 s3 : string) :
  s1 +:+ (s2 +:+ s3) = (s1 +:+ s2) +:+ s3.
Proof.
  induction s1 as [|a s1 IH]; [done|].
  change (String a (s1 +:+ (s2 +:+ s3)) = String a ((s1 +:+ s2) +:+ s3)).
  by rewrite IH.
Qed.

Lemma spec_concat_app (xs ys : list string) :
  spec_concat (xs ++ ys) = spec_concat xs +:+ spec_concat ys.
Proof.
  induction xs as [|x xs IH]; simpl; [done|].
  by rewrite IH, append_assoc.
Qed.

Lemma join_empty_separator (parts : list string) :
  join parts "" = spec_concat parts.
Proof.
  unfold join. induction parts as [|x [|y parts] IH]; simpl in *.
  - done.
  - by rewrite append_nil_r.
  - by rewrite IH.
Qed.

Lemma truthy_true (s : string) : truthy s = true ↔ s ≠ "".
Proof. unfold truthy. by rewrite bool_decide_eq_true. Qed.

Lemma inherited_None (key : string) :
  inherited key = None ↔ ¬ inherited_name key.
Proof.
  unfold inherited, inherited_name, object_prototype_names.
  rewrite !(elem_of_cons _ key).
  destruct (decide (key = "constructor")) as [|Hc]; [by split; [|intros []; left]|].
  destruct (decide (key = "__proto__")) as [|Hp];
    [by split; [|intros []; right; left]|].
  destruct (decide (key ∈ object_prototype_methods)) as [|Hm];
    [by split; [|intros []; right; right]|].
  split; [|done]. by intros _ [|[|]].
Qed.

Lemma get_property_own {A} (own : gmap string A) (key : string) (a : A) :
  own !! key = Some a → get_property own key = Own a.
Proof. intros Hown. unfold get_property. by rewrite Hown. Qed.

Lemma get_property_missing {A} (own : gmap string A) (key : string) :
  own !! key = None → ¬ inherited_name key → get_property own key = Missing.
Proof.
  intros Hown Hname. unfold get_property. rewrite Hown.
  by rewrite (proj2 (inherited_None key) Hname).
Qed.

Lemma get_property_agree {A} (own1 own2 : gmap string A) (key : string) :
  own1 !! key = own2 !! key → get_property own1 key = get_property own2 key.
Proof. intros Hagree. unfold get_property. by rewrite Hagree. Qed.

(** ** The loop of buildVariantSelector *)

Section buildVariantSelector_facts.
Context `{Host} (recipe : RuntimeFn.t).
Let table := RuntimeFn.variants (RuntimeFn.classNames recipe).

(** The loop pushes the fragments of the entries, in their order, and
    stops at the first read that throws. *)
Lemma buildVariantSelector_fragments (variants : VariantSelection) :
  buildVariantSelector recipe variants
  = fragments ← entry_fragments table variants;
    Normal (spec_concat fragments).
Proof.
  unfold buildVariantSelector.
  match goal with |- context [for_of _ ?b _] => set (body := b) end.
  assert (Hstep : ∀ entry parts,
    body entry parts
    = fragment ← entry_fragment table entry;
      Normal (parts ++ option_list fragment)).
  { intros [name value] parts. subst body. cbv beta iota zeta.
    unfold entry_fragment. cbn [fst snd]. fold table.
    destruct (decide (value = VUndefined)) as [->|Hdef].
    { cbn. by rewrite app_nil_r. }
    replace (match value with
             | VBool b => if b then "true" else "false"
             | _ => ToPropertyKey value
             end) with (ToPropertyKey value)
      by (by destruct value as [| s | []]).
    destruct (found (get_property table name)); cbn;
      [|by rewrite app_nil_r].
    destruct (member (get_property table name) (ToPropertyKey value))
      as [className|e]; cbn; [|done].
    destruct (ToBoolean className); cbn; by rewrite ?app_nil_r. }
  assert (Hloop : ∀ entries parts,
    for_of entries body parts
    = fragments ← entry_fragments table entries;
      Normal (parts ++ fragments)).
  { induction entries as [|entry entries IH]; intros parts; cbn.
    - by rewrite app_nil_r.
    - rewrite Hstep.
      destruct (entry_fragment table entry) as [fragment|e]; cbn; [|done].
      rewrite IH.
      destruct (entry_fragments table entries) as [fragments|e]; cbn; [|done].
      by rewrite app_assoc. }
  rewrite Hloop.
  destruct (entry_fragments table variants) as [fragments|e]; [|done].
  unfold mbind, Completion_bind, mret, Completion_ret. cbn [app].
  by rewrite join_empty_separator.
Qed.

Lemma entry_fragments_app (xs ys : VariantSelection) :
  entry_fragments table (xs ++ ys)
  = fx ← entry_fragments table xs;
    fy ← entry_fragments table ys;
    Normal (fx ++ fy).
Proof.
  induction xs as [|x xs IH]; cbn.
  - by destruct (entry_fragments table ys).
  - destruct (entry_fragment table x) as [fragment|e]; cbn; [|done].
    rewrite IH.
    destruct (entry_fragments table xs) as [fx|e]; cbn; [|done].
    destruct (entry_fragments table ys) as [fy|e]; cbn; [|done].
    by rewrite app_assoc.
Qed.

(** An entry that pushes nothing may be dropped from the choice. *)
Lemma buildVariantSelector_drop (pre post : VariantSelection) entry :
  entry_fragment table entry = Normal None →
  buildVariantSelector recipe (pre ++ entry :: post)
  = buildVariantSelector recipe (pre ++ post).
Proof.
  intros Hnone. rewrite !buildVariantSelector_fragments.
  rewrite !entry_fragments_app. cbn. rewrite Hnone.
  by destruct (entry_fragments table pre), (entry_fragments table post).
Qed.

(** An entry may be replaced by one that pushes the same. *)
Lemma buildVariantSelector_replace (pre post : VariantSelection) entry entry' :
  entry_fragment table entry = entry_fragment table entry' →
  buildVariantSelector recipe (pre ++ entry :: post)
  = buildVariantSelector recipe (pre ++ entry' :: post).
Proof.
  intros Hsame. rewrite !buildVariantSelector_fragments.
  rewrite !entry_fragments_app. cbn. by rewrite Hsame.
Qed.

(** Without inherited reads the entry pushes the fragment of the
    specification. *)
Lemma entry_fragment_own (entry : string * VariantValue) :
  no_inherited_read table entry →
  entry_fragment table entry = Normal (spec_fragment table entry).
Proof.
  destruct entry as [name value].
  unfold no_inherited_read, entry_fragment, spec_fragment. cbn [fst snd].
  destruct (decide (value = VUndefined)) as [->|Hdef]; [done|].
  assert (spec_token value = Some (ToPropertyKey value)) as Htoken
    by (by destruct value as [| s | []]).
  rewrite Htoken. cbn.
  destruct (table !! name) as [group|] eqn:Hgroup; intros Hown.
  - rewrite (get_property_own _ _ _ Hgroup). cbn.
    destruct (group !! ToPropertyKey value) as [className|] eqn:Hclass.
    + rewrite (get_property_own _ _ _ Hclass). cbn.
      unfold truthy. by destruct (decide (className = ""));
        [rewrite bool_decide_eq_false_2 by naive_solver
        |rewrite bool_decide_eq_true_2].
    + destruct Hown as [[? [=]]|Hown]. by rewrite get_property_missing.
  - by rewrite get_property_missing.
Qed.

Lemma entry_fragments_own (entries : VariantSelection) :
  Forall (no_inherited_read table) entries →
  entry_fragments table entries = Normal (omap (spec_fragment table) entries).
Proof.
  induction 1 as [|entry entries Hentry _ IH]; [done|].
  cbn. rewrite (entry_fragment_own _ Hentry), IH. cbn.
  by destruct (spec_fragment table entry).
Qed.

Lemma buildVariantSelector_own (entries : VariantSelection) :
  Forall (no_inherited_read table) entries →
  buildVariantSelector recipe entries
  = Normal (spec_concat (omap (spec_fragment table) entries)).
Proof.
  intros Hown.
  by rewrite buildVariantSelector_fragments, entry_fragments_own.
Qed.

(** What an entry pushes is not empty. *)
Lemma entry_fragment_not_empty (entry : string * VariantValue) fragment :
  entry_fragment table entry = Normal (Some fragment) →
  ∃ rest, fragment = "." +:+ rest.
Proof.
  unfold entry_fragment.
  destruct (decide (entry.2 = VUndefined)); [done|].
  destruct (found _); [cbn|done].
  destruct (member _ _) as [className|]; [cbn|done].
  destruct (ToBoolean className); [|done]. intros [= <-]. eauto.
Qed.
End buildVariantSelector_facts.

(** ** Running code that calls globalStyle *)

Lemma JS_bind_normal {A B} (m : JS A) (f : A → JS B) log a log' :
  m log = (Normal a, log') → (m ≫= f) log = f a log'.
Proof. intros Hm. unfold mbind, JS_bind. by rewrite Hm. Qed.

Lemma JS_bind_throw {A B} (m : JS A) (f : A → JS B) log e log' :
  m log = (Throw e, log') → (m ≫= f) log = (Throw e, log').
Proof. intros Hm. unfold mbind, JS_bind. by rewrite Hm. Qed.

Lemma JS_bind_ext {A B} (m : JS A) (f g : A → JS B) log :
  (∀ a log', f a log' = g a log') → (m ≫= f) log = (m ≫= g) log.
Proof.
  intros Hfg. unfold mbind, JS_bind. by destruct (m log) as [[a|e] log'].
Qed.

Lemma JS_bind_ext_l {A B} (m m' : JS A) (f g : A → JS B) log :
  (∀ log', m log' = m' log') → (∀ a log', f a log' = g a log') →
  (m ≫= f) log = (m' ≫= g) log.
Proof.
  intros Hm Hfg. unfold mbind, JS_bind. rewrite Hm.
  by destruct (m' log) as [[a|e] log'].
Qed.

Lemma forEach_app {A} (xs ys : list A) (body : A → JS unit) log :
  forEach (xs ++ ys) body log = (forEach xs body;; forEach ys body) log.
Proof.
  revert log. induction xs as [|x xs IH]; intros log; [done|].
  cbn [app forEach]. unfold mbind, JS_bind in *.
  destruct (body x log) as [[[]|e] log']; [apply IH|done].
Qed.

Lemma forEach_drop {A} (pre post : list A) (x : A) (body : A → JS unit) log :
  (∀ log', body x log' = (Normal tt, log')) →
  forEach (pre ++ x :: post) body log = forEach (pre ++ post) body log.
Proof.
  intros Hskip. revert log. induction pre as [|y pre IH]; intros log.
  - cbn [app forEach]. by erewrite JS_bind_normal by apply Hskip.
  - cbn [app forEach]. unfold mbind, JS_bind.
    destruct (body y log) as [[[]|e] log']; [apply IH|done].
Qed.

(** ** Steps *)

Lemma run_steps_app (first second : list Step) :
  run_steps (first ++ second)
  = match run_steps first with
    | (calls, None) =>
        let '(more, error) := run_steps second in (calls ++ more, error)
    | (calls, Some e) => (calls, Some e)
    end.
Proof.
  induction first as [|[calls|e] first IH]; cbn.
  - by destruct (run_steps second).
  - rewrite IH. destruct (run_steps first) as [calls1 [e|]]; [done|].
    destruct (run_steps second) as [calls2 error]. by rewrite app_assoc.
  - done.
Qed.

Lemma outcome_run_steps_app (first second : list Step) log :
  outcome (run_steps (first ++ second)) log
  = (outcome (run_steps first);; outcome (run_steps second)) log.
Proof.
  rewrite run_steps_app. unfold mbind, JS_bind, outcome.
  destruct (run_steps first) as [calls1 [e|]]; cbn; [done|].
  destruct (run_steps second) as [calls2 error]; cbn.
  by rewrite app_assoc.
Qed.

Lemma outcome_nil log : outcome (run_steps []) log = (Normal tt, log).
Proof. unfold outcome. cbn. by rewrite app_nil_r. Qed.

Lemma outcome_framed (result : list Registration * option JSError) :
  framed (outcome result).
Proof. intros log. unfold outcome. cbn. done. Qed.

Lemma flat_map_singleton {A B} (f : A → B) (l : list A) :
  flat_map (λ x, [f x]) l = f <$> l.
Proof. induction l as [|x l IH]; [done|]. cbn. by rewrite IH. Qed.

(** A loop runs the steps of its iterations in sequence. *)
Lemma forEach_steps {A} (xs : list A) (body : A → JS unit)
    (steps : A → list Step) log :
  (∀ x log', body x log' = outcome (run_steps (steps x)) log') →
  forEach xs body log = outcome (run_steps (flat_map steps xs)) log.
Proof.
  intros Hbody. revert log. induction xs as [|x xs IH]; intros log.
  - apply eq_sym, outcome_nil.
  - cbn [forEach flat_map]. rewrite outcome_run_steps_app.
    by apply JS_bind_ext_l.
Qed.

Section applyStyle_facts.
Context (generators : SelectorGenerators) (classSelector : string).

(** What one call of [applyStyle] does: its steps, one after the other. *)
Lemma applyStyle_run style log :
  applyStyle generators classSelector style log
  = outcome (run_steps (block_steps generators classSelector style)) log.
Proof.
  unfold applyStyle, block_steps.
  change (?x :: ?l) with ([x] ++ l). rewrite outcome_run_steps_app.
  apply JS_bind_ext_l.
  - intros log'. unfold self_step, outcome.
    destruct (properties style) as [|prop props]; cbn.
    { by rewrite app_nil_r. }
    unfold mbind at 1, JS_bind, lift.
    by destruct (call _ _) as [selector|e]; cbn; rewrite ?app_nil_r.
  - intros [] log'. destruct (selectors style) as [states|]; cbn [default];
      [|apply eq_sym, outcome_nil].
    rewrite <- (flat_map_singleton (state_step generators classSelector)).
    apply forEach_steps. intros [key nested] log''.
    unfold state_step, outcome. cbn [fst snd].
    destruct nested as [rule|]; cbn; [|by rewrite app_nil_r].
    destruct (found (get_property generators key)); cbn;
      [|by rewrite app_nil_r].
    unfold mbind at 1, JS_bind, lift.
    by destruct (call _ _) as [selector|e]; cbn; rewrite ?app_nil_r.
Qed.

Lemma self_step_own style generator :
  generators !! "&" = Some generator → properties style ≠ [] →
  self_step generators classSelector style
  = Normal [(JString (generator classSelector), properties style)].
Proof.
  intros Hself Hprops. unfold self_step.
  rewrite decide_False by done. by rewrite (get_property_own _ _ _ Hself).
Qed.

Lemma self_step_none style :
  properties style = [] → self_step generators classSelector style = Normal [].
Proof. intros Hprops. unfold self_step. by rewrite decide_True. Qed.

Lemma self_step_throw style :
  generators !! "&" = None → properties style ≠ [] →
  self_step generators classSelector style
  = Throw (TypeError "is not a function").
Proof.
  intros Hself Hprops. unfold self_step.
  rewrite decide_False by done. unfold get_property. by rewrite Hself.
Qed.

Lemma self_step_spec style :
  properties style = [] ∨ is_Some (generators !! "&") →
  self_step generators classSelector style
  = Normal (option_list
              (spec_self_registration generators classSelector style)).
Proof.
  intros Hok. unfold spec_self_registration.
  destruct (decide (properties style = [])) as [Hnone|Hprops].
  - by apply self_step_none.
  - destruct Hok as [|[generator Hself]]; [done|].
    rewrite (self_step_own _ _ Hself Hprops). by rewrite Hself.
Qed.

Lemma state_step_own state :
  no_inherited_state generators state →
  state_step generators classSelector state
  = Normal (option_list
              (spec_state_registration generators classSelector state)).
Proof.
  destruct state as [key nested].
  unfold no_inherited_state, state_step, spec_state_registration.
  cbn [fst snd]. intros Hown.
  destruct (generators !! key) as [generator|] eqn:Hgen.
  - rewrite (get_property_own _ _ _ Hgen). by destruct nested.
  - destruct Hown as [[? [=]]|Hown].
    rewrite get_property_missing by done. by destruct nested.
Qed.

Lemma run_steps_own (states : list (string * option GlobalStyleRule)) :
  Forall (no_inherited_state generators) states →
  run_steps (state_step generators classSelector <$> states)
  = (omap (spec_state_registration generators classSelector) states, None).
Proof.
  induction 1 as [|state states Hstate _ IH]; [done|].
  cbn. rewrite (state_step_own _ Hstate), IH.
  by destruct (spec_state_registration generators classSelector state).
Qed.

(** A block without inherited reads makes the calls of the specification. *)
Lemma applyStyle_own style log :
  properties style = [] ∨ is_Some (generators !! "&") →
  Forall (no_inherited_state generators) (default [] (selectors style)) →
  applyStyle generators classSelector style log
  = (Normal tt, log ++ spec_block generators classSelector style).
Proof.
  intros Hok Hown. rewrite applyStyle_run. unfold block_steps. cbn.
  rewrite (self_step_spec _ Hok), (run_steps_own _ Hown).
  by unfold outcome.
Qed.

Lemma applyStyle_throw style log :
  properties style ≠ [] → generators !! "&" = None →
  applyStyle generators classSelector style log
  = (Throw (TypeError "is not a function"), log).
Proof.
  intros Hprops Hself. rewrite applyStyle_run. unfold block_steps. cbn.
  rewrite (self_step_throw _ Hself Hprops). unfold outcome. cbn.
  by rewrite app_nil_r.
Qed.

(** Each step makes at most one call. *)
Lemma length_run_block_steps style :
  length (run_steps (block_steps generators classSelector style)).1
  ≤ 1 + length (default [] (selectors style)).
Proof.
  unfold block_steps. cbn.
  assert (Hstates : ∀ states,
    length (run_steps (state_step generators classSelector <$> states)).1
    ≤ length states).
  { induction states as [|[key nested] states IH]; cbn; [done|].
    unfold state_step at 1. cbn [fst snd].
    destruct nested as [rule|];
      [destruct (found _); [destruct (call _ _); cbn|]|];
      destruct (run_steps _) as [more error]; cbn in *; lia. }
  specialize (Hstates (default [] (selectors style))).
  unfold self_step. destruct (decide (properties style = []));
    [|destruct (call _ _); cbn];
    destruct (run_steps _) as [more error]; cbn in *; lia.
Qed.
End applyStyle_facts.

(** ** Runs of globalRecipe *)

Section globalRecipe_facts.
Context `{Host} (r : RuntimeFn.t) (generators : SelectorGenerators).

(** One iteration of [compoundVariants.forEach]. *)
Lemma compound_run (entry : CompoundVariant) log :
  (variantSelector ← lift (buildVariantSelector r (variants entry));
   if truthy variantSelector
   then applyStyle generators variantSelector (style entry)
   else mret tt) log
  = outcome (run_steps (entry_steps r generators entry)) log.
Proof.
  unfold entry_steps, mbind at 1, JS_bind, lift.
  destruct (buildVariantSelector r (variants entry)) as [selector|e].
  - destruct (truthy selector); [apply applyStyle_run|].
    apply eq_sym, outcome_nil.
  - unfold outcome. cbn. by rewrite app_nil_r.
Qed.

(** An invocation runs its steps, one after the other. *)
Lemma globalRecipe_run base_style compounds log :
  let options := {| recipe := r; selectorGenerators := generators;
                    base := base_style; compoundVariants := compounds |} in
  globalRecipe options log = outcome (run_steps (invocation_steps options)) log.
Proof.
  intros options. unfold globalRecipe, invocation_steps. subst options.
  cbn [recipe selectorGenerators base compoundVariants].
  rewrite outcome_run_steps_app. apply JS_bind_ext_l.
  - intros log'. destruct base_style as [style|];
      [apply applyStyle_run|apply eq_sym, outcome_nil].
  - intros [] log'. destruct compounds as [entries|]; cbn [default];
      [|apply eq_sym, outcome_nil].
    apply forEach_steps. intros entry log''. apply compound_run.
Qed.

Lemma length_run_entry_steps (entry : CompoundVariant) :
  length (run_steps (entry_steps r generators entry)).1
  ≤ match buildVariantSelector r (variants entry) with
    | Normal variantSelector =>
        if truthy variantSelector
        then 1 + length (default [] (selectors (style entry))) else 0
    | Throw _ => 0
    end.
Proof.
  unfold entry_steps.
  destruct (buildVariantSelector r (variants entry)) as [selector|e];
    [|done].
  destruct (truthy selector); [apply length_run_block_steps|done].
Qed.
End globalRecipe_facts.

Lemma globalRecipe_steps `{Host} (options : GlobalRecipeOptions) log :
  globalRecipe options log = outcome (run_steps (invocation_steps options)) log.
Proof. destruct options. apply globalRecipe_run. Qed.

Lemma framed_applyStyle generators classSelector style :
  framed (applyStyle generators classSelector style).
Proof. intros log. rewrite !applyStyle_run. apply outcome_framed. Qed.

Lemma framed_globalRecipe `{Host} options : framed (globalRecipe options).
Proof. intros log. rewrite !globalRecipe_steps. apply outcome_framed. Qed.

Lemma length_run_steps_app (first second : list Step) :
  length (run_steps (first ++ second)).1
  ≤ length (run_steps first).1 + length (run_steps second).1.
Proof.
  rewrite run_steps_app.
  destruct (run_steps first) as [calls1 [e|]]; cbn; [lia|].
  destruct (run_steps second) as [calls2 error]; cbn.
  rewrite length_app. lia.
Qed.

(** ** Enumeration order *)

Lemma elem_of_insert_indexed {A} (n : N) (x : A) (l : list (N * A)) y :
  y ∈ insert_indexed n x l ↔ y = (n, x) ∨ y ∈ l.
Proof.
  induction l as [|[m z] l IH]; cbn.
  - rewrite list_elem_of_singleton, elem_of_nil. naive_solver.
  - case_decide; rewrite !elem_of_cons, ?IH; naive_solver.
Qed.

(** The enumeration yields own properties only. *)
Lemma elem_of_Object_entries {A} (props : list (string * A)) p :
  p ∈ Object_entries props → p ∈ props.
Proof.
  unfold Object_entries. rewrite elem_of_app. intros [Hin|Hin].
  - apply list_elem_of_fmap in Hin as ([n q] & -> & Hin). cbn.
    assert (Hsorted : ∀ indexed, (n, q) ∈ foldr
      (λ '(n, p) sorted, insert_indexed n p sorted) [] indexed →
      (n, q) ∈ indexed).
    { induction indexed as [|[m z] indexed IH]; cbn; [done|].
      rewrite elem_of_insert_indexed, elem_of_cons. naive_solver. }
    apply Hsorted, list_elem_of_omap in Hin as (q' & Hq' & Hindex).
    destruct (array_index q'.1); by simplify_eq/=.
  - by apply list_elem_of_filter in Hin as [_ ?].
Qed.

(** Without array indices among the keys it is the order as written. *)
Lemma Object_entries_plain {A} (props : list (string * A)) :
  Forall (λ p, array_index p.1 = None) props → Object_entries props = props.
Proof.
  intros Hplain. unfold Object_entries.
  assert (omap (λ p : string * A, n ← array_index p.1; Some (n, p)) props = [])
    as ->.
  { induction Hplain as [|p props Hp _ IH]; [done|].
    cbn. by rewrite Hp. }
  cbn. induction Hplain as [|p props Hp _ IH]; [done|].
  rewrite filter_cons, decide_True by done. by rewrite IH.
Qed.

(** ** Scenarios of the test-suite *)

Example multiple_variants_combined :
  buildVariantSelector button_recipe
    [("size", VString "sm"); ("variant", VString "primary")]
  = Normal ".button_size_sm.button_variant_primary".
Proof. reflexivity. Qed.

Example skips_undefined_values :
  buildVariantSelector button_recipe
    [("size", VString "sm"); ("variant", VUndefined)]
  = Normal ".button_size_sm".
Proof. reflexivity. Qed.

Example base_and_compound_together :
  globalRecipe
    {| recipe := button_recipe;
       selectorGenerators := svg_generators;
       base := Some {| properties := [("pointerEvents", CSSString "none")];
                       selectors := None |};
       compoundVariants := Some
         [ {| variants := [("size", VString "sm")];
              style := {| properties := [("width", CSSString "16px")];
                          selectors := None |} |} ] |} []
  = (Normal tt,
     [ (JString ".button_base svg", [("pointerEvents", CSSString "none")]);
       (JString ".button_size_sm svg", [("width", CSSString "16px")]) ]).
Proof. reflexivity. Qed.

Example self_first_hover_second :
  globalRecipe
    {| recipe := button_recipe;
       selectorGenerators := svg_generators;
       base := None;
       compoundVariants := Some
         [ {| variants := [("size", VString "sm")];
              style := {| properties := [("width", CSSString "16px")];
                          selectors := Some
                            [("&:hover",
                              Some [("transform", CSSString "scale(1.1)")])] |}
           |} ] |} []
  = (Normal tt,
     [ (JString ".button_size_sm svg", [("width", CSSString "16px")]);
       (JString ".button_size_sm:hover svg",
        [("transform", CSSString "scale(1.1)")]) ]).
Proof. reflexivity. Qed.

Example empty_choice_is_skipped :
  globalRecipe
    {| recipe := button_recipe;
       selectorGenerators := svg_generators;
       base := None;
       compoundVariants := Some
         [ {| variants := [];
              style := {| properties := [("width", CSSString "16px")];
                          selectors := None |} |} ] |} []
  = (Normal tt, []).
Proof. reflexivity. Qed.

(** Without the ["&"] generator the first "self" registration throws. *)
Example missing_self_generator_throws :
  globalRecipe
    {| recipe := button_recipe;
       selectorGenerators := {[ "&:hover" := λ v, v +:+ ":hover svg" ]};
       base := Some {| properties := [("fill", CSSString "red")];
                       selectors := None |};
       compoundVariants := None |} []
  = (Throw (TypeError "is not a function"), []).
Proof. reflexivity. Qed.

(** Reads that go on to [Object.prototype]. *)
Example inherited_group_gives_fragment :
  buildVariantSelector button_recipe [("constructor", VString "name")]
  = Normal ".Object"
  ∧ buildVariantSelector button_recipe [("size", VString "__proto__")]
    = Normal ".[object Object]"
  ∧ buildVariantSelector button_recipe [("constructor", VString "caller")]
    = Throw (TypeError "restricted function property").
Proof. by split_and!. Qed.

Example inherited_state_is_called :
  applyStyle svg_generators ".button_size_sm" inherited_states []
  = (Normal tt,
     [ (JString "[object Undefined]", [("fill", CSSString "blue")]);
       (JString ".button_size_sm:hover svg", [("fill", CSSString "red")]) ])
  ∧ applyStyle svg_generators ".button_size_sm" throwing_states []
    = (Throw (TypeError "Cannot convert undefined or null to object"), []).
Proof. by split. Qed.

(** ** The Selector Builder *)

Lemma no_fragment_unset_or_unknown (table : gmap string (gmap string string))
    (choice : VariantSelection) :
  Forall (λ entry, entry.2 = VUndefined ∨ table !! entry.1 = None) choice →
  omap (spec_fragment table) choice = [].
Proof.
  induction 1 as [|[name value] entries Hentry _ IH]; [done|].
  cbn [omap list_omap]. unfold spec_fragment at 1. cbn [fst snd] in *.
  destruct Hentry as [->|Hgroup]; [done|].
  rewrite Hgroup. by destruct (spec_token value).
Qed.

Section selector_builder.
Context `{Host}.

(** C1, amended. For every variant table and every choice that leads to no
    read of an inherited property (no group name that the table lacks and
    no value key that its group lacks is the name of a property of
    [Object.prototype]), [buildVariantSelector] returns the concatenation,
    with no separator and in the order in which [Object.entries]
    enumerates the choice's own entries (array-index keys in ascending
    order, then the other keys in insertion order; insertion order when no
    key is an array index), of the fragments ["." + className] of the
    entries that are set, whose group is in the table and whose
    (boolean-normalized) value has a class name there; the other entries
    contribute nothing, and the result is the empty string when no
    fragment is produced, as when every entry is unset or names an unknown
    group. *)
Theorem C1_selector_is_concatenation_of_fragments
    (recipe : RuntimeFn.t) (written : VariantSelection) :
  let table := RuntimeFn.variants (RuntimeFn.classNames recipe) in
  let entries := Object_entries written in
  Forall (no_inherited_read table) written →
  buildVariantSelector recipe entries
  = Normal (spec_concat (omap (spec_fragment table) entries))
  ∧ (omap (spec_fragment table) entries = [] →
     buildVariantSelector recipe entries = Normal "")
  ∧ (Forall (λ entry, entry.2 = VUndefined ∨ table !! entry.1 = None) written →
     buildVariantSelector recipe entries = Normal "")
  ∧ (Forall (λ entry, array_index entry.1 = None) written →
     entries = written).
Proof.
  intros table entries Hown.
  assert (Hrun : buildVariantSelector recipe entries
    = Normal (spec_concat (omap (spec_fragment table) entries))).
  { apply buildVariantSelector_own. apply Forall_forall. intros entry Hin.
    apply elem_of_Object_entries in Hin.
    by apply (proj1 (Forall_forall _ _) Hown). }
  split_and!; [done|by intros Hnone; rewrite Hrun, Hnone| |].
  - intros Hall. rewrite Hrun, no_fragment_unset_or_unknown; [done|].
    apply Forall_forall. intros entry Hin.
    apply elem_of_Object_entries in Hin.
    by apply (proj1 (Forall_forall _ _) Hall).
  - apply Object_entries_plain.
Qed.

(** C5. A boolean value is normalized to the token ["true"] or ["false"]
    before the lookup: in any choice it behaves as that string would, so
    that [true] selects the class keyed ["true"] of the group and [false]
    the class keyed ["false"]. *)
Theorem C5_boolean_normalized_before_lookup
    (recipe : RuntimeFn.t) (name : string) (b : bool) :
  let table := RuntimeFn.variants (RuntimeFn.classNames recipe) in
  let token := if b then "true" else "false" in
  (∀ pre post,
     buildVariantSelector recipe (pre ++ (name, VBool b) :: post)
     = buildVariantSelector recipe (pre ++ (name, VString token) :: post))
  ∧ (∀ group className,
       table !! name = Some group → group !! token = Some className →
       className ≠ "" →
       buildVariantSelector recipe [(name, VBool b)]
       = Normal ("." +:+ className)).
Proof.
  intros table token. subst table token. split.
  - intros pre post. apply buildVariantSelector_replace.
    unfold entry_fragment. cbn [fst snd]. by destruct b.
  - intros group className Hgroup Hclass Hne.
    rewrite buildVariantSelector_own.
    + cbn [omap list_omap]. unfold spec_fragment. cbn [fst snd spec_token].
      rewrite Hgroup. cbn. rewrite Hclass. cbn.
      rewrite decide_False by done. cbn. by rewrite append_nil_r.
    + constructor; [|constructor]. unfold no_inherited_read.
      cbn [fst snd spec_token].
      rewrite Hgroup. left. by rewrite Hclass.
Qed.

(** C9, amended. [buildVariantSelector] completes for every choice whose
    group names, where the table lacks them, are no names of properties of
    [Object.prototype]; and an entry that is unset, names a group absent
    from the table and from [Object.prototype], or whose value is absent
    from the group's mapping and from [Object.prototype], contributes no
    fragment: the result is the one of the choice without that entry. *)
Theorem C9_buildVariantSelector_never_raises (recipe : RuntimeFn.t) :
  let table := RuntimeFn.variants (RuntimeFn.classNames recipe) in
  (∀ variants,
     Forall (λ entry, is_Some (table !! entry.1) ∨ ¬ inherited_name entry.1)
       variants →
     completes (buildVariantSelector recipe variants))
  ∧ (∀ pre name value post,
       value = VUndefined
       ∨ (table !! name = None ∧ ¬ inherited_name name)
       ∨ (∃ group, table !! name = Some group
                   ∧ group !! ToPropertyKey value = None
                   ∧ ¬ inherited_name (ToPropertyKey value)) →
       buildVariantSelector recipe (pre ++ (name, value) :: post)
       = buildVariantSelector recipe (pre ++ post)).
Proof.
  intros table. subst table. split.
  - intros variants Hnames. rewrite buildVariantSelector_fragments.
    set (table := RuntimeFn.variants (RuntimeFn.classNames recipe)) in *.
    assert (completes (entry_fragments table variants)) as [fragments ->];
      [|by eexists].
    induction Hnames as [|[name value] entries Hname _ [fragments IH]];
      [by eexists|].
    cbn. rewrite IH.
    assert (completes (entry_fragment table (name, value))) as [fragment ->];
      [|by eexists].
    unfold entry_fragment. cbn [fst snd] in *.
    destruct (decide (value = VUndefined)); [by eexists|].
    destruct (table !! name) as [group|] eqn:Hgroup.
    + rewrite (get_property_own _ _ _ Hgroup). cbn.
      destruct (get_property group (ToPropertyKey value)); by eexists.
    + destruct Hname as [[? [=]]|Hname].
      rewrite get_property_missing by done. by eexists.
  - intros pre name value post Hbad.
    apply buildVariantSelector_drop.
    rewrite entry_fragment_own.
    + f_equal. unfold spec_fragment. cbn [fst snd].
      destruct Hbad as [->|[[Hgroup _]|(group & Hgroup & Hkey & _)]];
        [done|..].
      * rewrite Hgroup. by destruct (spec_token value).
      * rewrite Hgroup.
        destruct value as [|s|[]]; cbn in *; by rewrite ?Hkey.
    + unfold no_inherited_read. cbn [fst snd].
      destruct Hbad as [->|[[Hgroup Hname]|(group & Hgroup & Hkey & Hname)]].
      * done.
      * destruct (spec_token value); [|done]. by rewrite Hgroup.
      * destruct value as [|s|[]]; cbn in *; rewrite ?Hgroup; auto.
Qed.

(** C10, amended. An entry whose group is in the table but whose
    (normalized) value maps to the empty string contributes no fragment:
    the class name is tested for truthiness, so the empty class name
    behaves as an absent one whenever the value key is not the name of a
    property of [Object.prototype]. *)
Theorem C10_empty_class_name_is_skipped
    (recipe : RuntimeFn.t) (name : string) (value : VariantValue)
    (group : gmap string string) :
  let table := RuntimeFn.variants (RuntimeFn.classNames recipe) in
  value ≠ VUndefined →
  table !! name = Some group →
  group !! ToPropertyKey value = Some "" →
  buildVariantSelector recipe [(name, value)] = Normal ""
  ∧ (∀ pre post,
       buildVariantSelector recipe (pre ++ (name, value) :: post)
       = buildVariantSelector recipe (pre ++ post))
  ∧ (¬ inherited_name (ToPropertyKey value) →
     ∀ choice,
       buildVariantSelector recipe choice
       = buildVariantSelector
           {| RuntimeFn.classNames := {|
                RuntimeFn.base := RuntimeFn.base (RuntimeFn.classNames recipe);
                RuntimeFn.variants :=
                  <[name := delete (ToPropertyKey value) group]> table |} |}
           choice).
Proof.
  intros table Hdef Hgroup Hclass. subst table.
  set (table := RuntimeFn.variants (RuntimeFn.classNames recipe)) in *.
  assert (Hnone : entry_fragment table (name, value) = Normal None).
  { unfold entry_fragment. cbn [fst snd].
    rewrite decide_False by done.
    rewrite (get_property_own _ _ _ Hgroup). cbn.
    by rewrite (get_property_own _ _ _ Hclass). }
  split_and!.
  - apply (buildVariantSelector_drop recipe [] []). apply Hnone.
  - intros pre post. by apply buildVariantSelector_drop.
  - intros Hname choice. rewrite !buildVariantSelector_fragments.
    cbn [RuntimeFn.classNames RuntimeFn.variants]. fold table.
    f_equal. induction choice as [|[name' value'] choice IH]; [done|].
    cbn. rewrite IH. f_equal.
    unfold entry_fragment. cbn [fst snd].
    destruct (decide (value' = VUndefined)); [done|].
    destruct (decide (name = name')) as [<-|Hother].
    + rewrite (get_property_own _ _ _ Hgroup).
      rewrite (get_property_own _ name (delete (ToPropertyKey value) group))
        by apply lookup_insert_eq.
      cbn. destruct (decide (ToPropertyKey value = ToPropertyKey value'))
        as [<-|Htoken].
      * rewrite (get_property_own _ _ _ Hclass).
        by rewrite get_property_missing by (done || apply lookup_delete_eq).
      * by rewrite (get_property_agree (delete (ToPropertyKey value) group)
                      group) by by apply lookup_delete_ne.
    + by rewrite (get_property_agree (<[name:=_]> table) table)
        by by apply lookup_insert_ne.
Qed.
End selector_builder.

(** A group that the table lacks but [Object.prototype] has gives a
    fragment, and the order is not the order written when a key is an
    array index. *)
Lemma C1_counterexample :
  let table := RuntimeFn.variants (RuntimeFn.classNames button_recipe) in
  let choice := [("constructor", VString "name")] in
  let indexed := RuntimeFn.variants (RuntimeFn.classNames indexed_recipe) in
  let written := [("gap", VString "wide"); ("1", VString "on")] in
  buildVariantSelector button_recipe (Object_entries choice) = Normal ".Object"
  ∧ table !! "constructor" = None
  ∧ buildVariantSelector button_recipe (Object_entries choice)
    ≠ Normal (spec_concat (omap (spec_fragment table) choice))
  ∧ buildVariantSelector indexed_recipe (Object_entries written)
    = Normal ".grid_1_on.grid_gap_wide"
  ∧ buildVariantSelector indexed_recipe (Object_entries written)
    ≠ Normal (spec_concat (omap (spec_fragment indexed) written)).
Proof. by split_and!. Qed.

Lemma C1_witness :
  let written := [("variant", VUndefined); ("10", VString "red");
                  ("size", VString "md"); ("2", VString "x");
                  ("disabled", VBool false)] in
  buildVariantSelector button_recipe (Object_entries written)
  = Normal ".button_size_md.button_disabled_false".
Proof.
  refine (proj1 (C1_selector_is_concatenation_of_fragments button_recipe
            [("variant", VUndefined); ("10", VString "red");
             ("size", VString "md"); ("2", VString "x");
             ("disabled", VBool false)] _)).
  by_evaluation.
Defined.

Lemma C5_witness :
  buildVariantSelector button_recipe [("disabled", VBool true)]
  = Normal ".button_disabled_true"
  ∧ buildVariantSelector button_recipe [("disabled", VBool false)]
    = Normal ".button_disabled_false".
Proof.
  split.
  - apply (proj2 (C5_boolean_normalized_before_lookup
                    button_recipe "disabled" true)
             {[ "true" := "button_disabled_true";
                "false" := "button_disabled_false" ]} "button_disabled_true");
      [reflexivity|reflexivity|discriminate].
  - apply (proj2 (C5_boolean_normalized_before_lookup
                    button_recipe "disabled" false)
             {[ "true" := "button_disabled_true";
                "false" := "button_disabled_false" ]} "button_disabled_false");
      [reflexivity|reflexivity|discriminate].
Defined.

(** A group that the table lacks contributes a fragment when
    [Object.prototype] has its name, and a read of [caller] raises. *)
Lemma C9_counterexample :
  let table := RuntimeFn.variants (RuntimeFn.classNames button_recipe) in
  buildVariantSelector button_recipe
    [("size", VString "sm"); ("constructor", VString "name")]
  = Normal ".button_size_sm.Object"
  ∧ table !! "constructor" = None
  ∧ buildVariantSelector button_recipe
      [("size", VString "sm"); ("constructor", VString "name")]
    ≠ buildVariantSelector button_recipe [("size", VString "sm")]
  ∧ buildVariantSelector button_recipe [("constructor", VString "caller")]
    = Throw (TypeError "restricted function property").
Proof. by split_and!. Qed.

Lemma C9_witness :
  completes (buildVariantSelector button_recipe
               [("size", VString "sm"); ("colour", VString "red")])
  ∧ buildVariantSelector button_recipe
      [("size", VString "sm"); ("variant", VUndefined)]
    = Normal ".button_size_sm"
  ∧ buildVariantSelector button_recipe
      [("size", VString "sm"); ("colour", VString "red")]
    = Normal ".button_size_sm"
  ∧ buildVariantSelector button_recipe
      [("disabled", VBool true); ("size", VString "xl")]
    = Normal ".button_disabled_true".
Proof.
  pose proof (C9_buildVariantSelector_never_raises button_recipe)
    as [Hcompletes Hdrop].
  split_and!.
  - apply Hcompletes. by_evaluation.
  - etrans; [|reflexivity].
    apply (Hdrop [("size", VString "sm")] "variant" VUndefined []).
    left; reflexivity.
  - etrans; [|reflexivity].
    apply (Hdrop [("size", VString "sm")] "colour" (VString "red") []).
    right; left. split; [reflexivity|].
    by_evaluation.
  - etrans; [|reflexivity].
    apply (Hdrop [("disabled", VBool true)] "size" (VString "xl") []).
    right; right.
    exists {[ "sm" := "button_size_sm"; "md" := "button_size_md" ]}.
    split_and!; [reflexivity..|].
    by_evaluation.
Defined.

(** With the key [toString] the empty class name gives no fragment, but the
    absent one gives the text of the inherited function. *)
Lemma C10_counterexample :
  buildVariantSelector blank_method_recipe [("size", VString "toString")]
  = Normal ""
  ∧ buildVariantSelector no_method_recipe [("size", VString "toString")]
    = Normal ".function toString() { [native code] }"
  ∧ buildVariantSelector blank_method_recipe [("size", VString "toString")]
    ≠ buildVariantSelector no_method_recipe [("size", VString "toString")].
Proof. by split_and!. Qed.

Lemma C10_witness :
  buildVariantSelector blank_recipe [("size", VString "md")] = Normal ""
  ∧ buildVariantSelector blank_recipe
      [("size", VString "md"); ("colour", VString "red")]
    = buildVariantSelector
        {| RuntimeFn.classNames := {|
             RuntimeFn.base := "button_base";
             RuntimeFn.variants :=
               <["size" := delete "md" {[ "sm" := "button_size_sm"; "md" := "" ]}]>
                 (RuntimeFn.variants (RuntimeFn.classNames blank_recipe)) |} |}
        [("size", VString "md"); ("colour", VString "red")].
Proof.
  pose proof (C10_empty_class_name_is_skipped blank_recipe "size"
                (VString "md") {[ "sm" := "button_size_sm"; "md" := "" ]})
    as Hblank.
  destruct Hblank as (Halone & _ & Hdeleted);
    [discriminate|reflexivity|reflexivity|].
  split; [exact Halone|]. apply Hdeleted.
  by_evaluation.
Defined.

(** ** The Style Expander *)

Lemma length_state_registrations (generators : SelectorGenerators)
    (classSelector : string) (entries : list (string * option GlobalStyleRule)) :
  length (omap (spec_state_registration generators classSelector) entries)
  = length (filter (registers generators) entries).
Proof.
  induction entries as [|[key nested] entries IH]; [done|].
  cbn [omap list_omap]. rewrite filter_cons.
  destruct (decide (registers generators (key, nested)))
    as [[[g Hg] [rule Hrule]]|Hno]; cbn [fst snd] in *.
  - unfold spec_state_registration at 1. cbn [fst snd].
    rewrite Hg, Hrule. cbn. by rewrite IH.
  - assert (spec_state_registration generators classSelector (key, nested)
            = None) as ->; [|done].
    unfold spec_state_registration. cbn [fst snd].
    destruct (generators !! key) as [g|] eqn:Hg, nested as [rule|];
      cbn; try done.
    exfalso. apply Hno. split; cbn [fst snd]; eauto.
Qed.

Lemma run_steps_skip (steps : list Step) :
  run_steps (Normal [] :: steps) = run_steps steps.
Proof. cbn. by destruct (run_steps steps). Qed.

Lemma state_step_missing (generators : SelectorGenerators)
    (classSelector key : string) (nested : option GlobalStyleRule) :
  generators !! key = None → ¬ inherited_name key →
  state_step generators classSelector (key, nested) = Normal [].
Proof.
  intros Hgen Hname. unfold state_step. cbn [fst snd].
  destruct nested; [|done]. by rewrite get_property_missing.
Qed.

Section style_expander.
Context `{Host}.

(** C2. The calls of one invocation are made in this order: within a style
    block the step for the "self" registration (a call when the block has
    top-level properties) and then the steps of its states, in the order
    of the nested mapping; the steps of the base block before those of the
    compound-variant entries; the entries in the order of the array.  The
    invocation runs these steps one after the other and stops at the first
    one that throws.  So a block with top-level properties and one state,
    both with a generator, gives two calls, "self" first. *)
Theorem C2_registrations_in_order
    (options : GlobalRecipeOptions) (log : list Registration) :
  let generators := selectorGenerators options in
  let classNames := RuntimeFn.classNames (recipe options) in
  let of_block classSelector style :=
    self_step generators classSelector style
    :: (state_step generators classSelector <$> default [] (selectors style)) in
  let of_base :=
    match base options with
    | Some style => of_block ("." +:+ RuntimeFn.base classNames) style
    | None => []
    end in
  let of_entry entry :=
    match buildVariantSelector (recipe options) (variants entry) with
    | Normal variantSelector =>
        if truthy variantSelector
        then of_block variantSelector (style entry) else []
    | Throw e => [Throw e]
    end in
  let of_compounds :=
    flat_map of_entry (default [] (compoundVariants options)) in
  globalRecipe options log = outcome (run_steps (of_base ++ of_compounds)) log
  ∧ (∀ classSelector style log',
       applyStyle generators classSelector style log'
       = outcome (run_steps (of_block classSelector style)) log')
  ∧ (∀ self state classSelector key props nested log',
       generators !! "&" = Some self → generators !! key = Some state →
       props ≠ [] →
       applyStyle generators classSelector
         {| properties := props; selectors := Some [(key, Some nested)] |} log'
       = (Normal tt,
          log' ++ [ (JString (self classSelector), props);
                    (JString (state classSelector), nested) ])).
Proof.
  intros generators classNames of_block of_base of_entry of_compounds.
  split_and!.
  - exact (globalRecipe_steps options log).
  - intros classSelector style log'. apply applyStyle_run.
  - intros self state classSelector key props nested log' Hself Hstate Hprops.
    rewrite applyStyle_own; cbn [properties selectors from_option id].
    + unfold spec_block, spec_self_registration, spec_state_registrations,
        spec_state_registration.
      cbn [properties selectors from_option id omap list_omap fst snd].
      rewrite decide_False by done. by rewrite Hself, Hstate.
    + right. by rewrite Hself.
    + constructor; [|constructor]. left. cbn [fst]. by rewrite Hstate.
Qed.

(** C3. A compound-variant entry whose choice resolves to the empty
    selector leads to no registration at all, neither for its top-level
    properties nor for its nested state styles: alone it leaves the log as
    it is, and among other entries the invocation runs as without it. *)
Theorem C3_empty_selector_entry_is_skipped
    (r : RuntimeFn.t) (generators : SelectorGenerators)
    (base_style : option StyleRuleWithSelectors)
    (pre post : list CompoundVariant) (entry : CompoundVariant)
    (log : list Registration) :
  buildVariantSelector r (variants entry) = Normal "" →
  globalRecipe {| recipe := r; selectorGenerators := generators;
                  base := None; compoundVariants := Some [entry] |} log
  = (Normal tt, log)
  ∧ globalRecipe {| recipe := r; selectorGenerators := generators;
                    base := base_style;
                    compoundVariants := Some (pre ++ entry :: post) |} log
    = globalRecipe {| recipe := r; selectorGenerators := generators;
                      base := base_style;
                      compoundVariants := Some (pre ++ post) |} log.
Proof.
  intros Hempty.
  assert (Hskip : ∀ log',
    (variantSelector ← lift (buildVariantSelector r (variants entry));
     if truthy variantSelector
     then applyStyle generators variantSelector (style entry)
     else mret tt) log' = (Normal tt, log')).
  { intros log'. unfold mbind, JS_bind, lift. by rewrite Hempty. }
  unfold globalRecipe. cbn [recipe selectorGenerators base compoundVariants].
  split.
  - erewrite JS_bind_normal by reflexivity.
    cbn [forEach]. by erewrite JS_bind_normal by apply Hskip.
  - apply JS_bind_ext. intros _ log'. by apply forEach_drop.
Qed.

(** C4, amended. A style block without top-level properties leads to no
    "self" registration: [applyStyle] runs the steps of its states only.
    When no state key that the generator set lacks is the name of a
    property of [Object.prototype], it registers exactly the states of the
    nested mapping that have a generator and a present nested block, one
    registration each, in the order of the mapping. *)
Theorem C4_no_properties_no_self_registration
    (generators : SelectorGenerators) (classSelector : string)
    (style : StyleRuleWithSelectors) (log : list Registration) :
  properties style = [] →
  let states := default [] (selectors style) in
  let registered :=
    omap (spec_state_registration generators classSelector) states in
  spec_self_registration generators classSelector style = None
  ∧ applyStyle generators classSelector style log
    = outcome (run_steps (state_step generators classSelector <$> states)) log
  ∧ (Forall (no_inherited_state generators) states →
     applyStyle generators classSelector style log
     = (Normal tt, log ++ registered)
     ∧ length registered = length (filter (registers generators) states)).
Proof.
  intros Hprops states registered. split_and!.
  - unfold spec_self_registration. by rewrite decide_True.
  - rewrite applyStyle_run. unfold block_steps.
    by rewrite self_step_none, run_steps_skip.
  - intros Hown. split; [|apply length_state_registrations].
    rewrite applyStyle_own by (done || by left).
    unfold spec_block, spec_self_registration. by rewrite decide_True.
Qed.

(** C6, amended. A state of the nested mapping whose key has no generator
    and is not the name of a property of [Object.prototype] is skipped
    silently: [applyStyle] runs as on the block without that state, so it
    neither registers anything for it nor throws because of it, and the
    other states of the block are registered as usual. *)
Theorem C6_state_without_generator_is_skipped
    (generators : SelectorGenerators) (classSelector : string)
    (props : GlobalStyleRule)
    (pre post : list (string * option GlobalStyleRule))
    (key : string) (nested : option GlobalStyleRule)
    (log : list Registration) :
  generators !! key = None →
  ¬ inherited_name key →
  let style := {| properties := props;
                  selectors := Some (pre ++ (key, nested) :: post) |} in
  let others := {| properties := props; selectors := Some (pre ++ post) |} in
  applyStyle generators classSelector style log
  = applyStyle generators classSelector others log
  ∧ (props = [] ∨ is_Some (generators !! "&") →
     Forall (no_inherited_state generators) (pre ++ post) →
     applyStyle generators classSelector style log
     = (Normal tt,
        log ++ option_list (spec_self_registration generators classSelector style)
            ++ omap (spec_state_registration generators classSelector) pre
            ++ omap (spec_state_registration generators classSelector) post)).
Proof.
  intros Hgen Hname style others.
  assert (Hsame : applyStyle generators classSelector style log
                  = applyStyle generators classSelector others log).
  { rewrite !applyStyle_run. unfold block_steps, style, others.
    cbn [properties selectors from_option id].
    rewrite !fmap_app, fmap_cons, (state_step_missing _ _ _ _ Hgen Hname).
    rewrite !app_comm_cons, !run_steps_app, run_steps_skip.
    done. }
  split; [done|]. intros Hok Hown. rewrite Hsame.
  rewrite applyStyle_own by done.
  unfold spec_block, spec_state_registrations, others.
  cbn [properties selectors from_option id]. by rewrite omap_app.
Qed.

(** C7, amended. For a compound-variant entry that is expanded (the base
    block and the earlier entries complete, and its selector is not
    empty), at any position of the array and with or without a base block:
    when the ["&"] generator is defined or the entry's style block has no
    top-level property, and no state key of the block that the generator
    set lacks is the name of a property of [Object.prototype],
    [globalStyle] is called once for the "self" properties when the block
    has top-level properties and not at all for them otherwise, and once
    more per state of the nested mapping that has a generator and a
    present nested block; these calls follow those of the base block and
    of the earlier entries, and the later entries run after them. *)
Theorem C7_calls_per_expanded_entry
    (r : RuntimeFn.t) (generators : SelectorGenerators)
    (base_style : option StyleRuleWithSelectors)
    (pre post : list CompoundVariant) (entry : CompoundVariant)
    (selector : string) (log before : list Registration) :
  buildVariantSelector r (variants entry) = Normal selector →
  selector ≠ "" →
  properties (style entry) = [] ∨ is_Some (generators !! "&") →
  Forall (no_inherited_state generators)
    (default [] (selectors (style entry))) →
  globalRecipe {| recipe := r; selectorGenerators := generators;
                  base := base_style; compoundVariants := Some pre |} log
  = (Normal tt, before) →
  let for_self :=
    option_list (spec_self_registration generators selector (style entry)) in
  let for_states := spec_state_registrations generators selector (style entry) in
  globalRecipe {| recipe := r; selectorGenerators := generators;
                  base := base_style;
                  compoundVariants := Some (pre ++ entry :: post) |} log
  = globalRecipe {| recipe := r; selectorGenerators := generators;
                    base := None; compoundVariants := Some post |}
      (before ++ for_self ++ for_states)
  ∧ length for_self = (if decide (properties (style entry) = []) then 0 else 1)
  ∧ length for_states
    = length (filter (registers generators)
                (default [] (selectors (style entry)))).
Proof.
  intros Hsel Hne Hok Hown Hpre for_self for_states. split_and!.
  - rewrite !globalRecipe_steps in *. unfold invocation_steps in *.
    cbn [recipe selectorGenerators base compoundVariants from_option id] in *.
    rewrite flat_map_app. cbn [flat_map].
    rewrite app_assoc, outcome_run_steps_app.
    erewrite JS_bind_normal by exact Hpre.
    rewrite outcome_run_steps_app.
    erewrite JS_bind_normal; [done|].
    unfold entry_steps. rewrite Hsel, (proj2 (truthy_true _) Hne).
    rewrite <- applyStyle_run. by apply applyStyle_own.
  - unfold for_self, spec_self_registration.
    destruct (decide (properties (style entry) = [])) as [|Hprops]; [done|].
    destruct Hok as [?|[generator Hself]]; [done|]. by rewrite Hself.
  - apply length_state_registrations.
Qed.

(** C8. A supplied base style block is expanded with the compound selector
    ["." + recipe.classNames.base], whatever the variant table is: the
    invocation runs the steps of the block with that selector, "self" and
    then every state of the nested mapping, before those of the compound
    entries; with the generator [v => v + " svg"] for ["&"], the base
    [{pointerEvents: "none"}] and the base class ["btn"], the one call is
    [(".btn svg", {pointerEvents: "none"})]. *)
Theorem C8_base_uses_base_class
    (r : RuntimeFn.t) (generators : SelectorGenerators)
    (style : StyleRuleWithSelectors)
    (compounds : option (list CompoundVariant)) (log : list Registration) :
  let baseSelector := "." +:+ RuntimeFn.base (RuntimeFn.classNames r) in
  let states := default [] (selectors style) in
  let with_base compounds :=
    {| recipe := r; selectorGenerators := generators;
       base := Some style; compoundVariants := compounds |} in
  let btn :=
    {| RuntimeFn.classNames := {|
         RuntimeFn.base := "btn";
         RuntimeFn.variants := RuntimeFn.variants (RuntimeFn.classNames r) |} |} in
  globalRecipe (with_base compounds) log
  = outcome (run_steps
      (self_step generators baseSelector style
       :: (state_step generators baseSelector <$> states)
       ++ flat_map (entry_steps r generators) (default [] compounds))) log
  ∧ (properties style = [] ∨ is_Some (generators !! "&") →
     Forall (no_inherited_state generators) states →
     globalRecipe (with_base compounds) log
     = globalRecipe {| recipe := r; selectorGenerators := generators;
                       base := None; compoundVariants := compounds |}
         (log ++ option_list
                   (spec_self_registration generators baseSelector style)
              ++ omap (spec_state_registration generators baseSelector) states)
     ∧ globalRecipe (with_base None) log
       = (Normal tt,
          log ++ option_list
                   (spec_self_registration generators baseSelector style)
              ++ omap (spec_state_registration generators baseSelector) states))
  ∧ (∀ self, generators !! "&" = Some self → properties style ≠ [] →
       ∃ completion rest,
         globalRecipe (with_base compounds) log
         = (completion,
            log ++ (JString (self baseSelector), properties style) :: rest))
  ∧ globalRecipe
      {| recipe := btn;
         selectorGenerators := {[ "&" := λ v, v +:+ " svg" ]};
         base := Some {| properties := [("pointerEvents", CSSString "none")];
                         selectors := None |};
         compoundVariants := None |} []
    = (Normal tt,
       [(JString ".btn svg", [("pointerEvents", CSSString "none")])])
  ∧ globalRecipe
      {| recipe := btn; selectorGenerators := svg_generators;
         base := Some checkbox_base; compoundVariants := None |} []
    = (Normal tt,
       [ (JString ".btn svg", [("display", CSSString "flex")]);
         (JString ".btn:hover svg", [("opacity", CSSString "0.5")]) ]).
Proof.
  intros baseSelector states with_base btn.
  assert (Hsteps : ∀ compounds' log',
    globalRecipe (with_base compounds') log'
    = (applyStyle generators baseSelector style;;
       outcome (run_steps (flat_map (entry_steps r generators)
                             (default [] compounds')))) log').
  { intros compounds' log'. rewrite globalRecipe_steps.
    unfold invocation_steps, with_base.
    cbn [recipe selectorGenerators base compoundVariants].
    rewrite outcome_run_steps_app. apply JS_bind_ext_l; [|done].
    intros log''. by rewrite applyStyle_run. }
  split_and!.
  - exact (globalRecipe_steps (with_base compounds) log).
  - intros Hok Hown. rewrite !Hsteps.
    erewrite !JS_bind_normal by by apply applyStyle_own.
    unfold spec_block, spec_state_registrations. fold states.
    split; [|by rewrite outcome_nil].
    by rewrite globalRecipe_steps.
  - intros self Hself Hprops. rewrite globalRecipe_steps.
    unfold invocation_steps, with_base, block_steps.
    cbn [recipe selectorGenerators base compoundVariants].
    rewrite (self_step_own _ _ _ _ Hself Hprops).
    cbn [app run_steps].
    destruct (run_steps _) as [more error]. by eexists _, _.
  - reflexivity.
  - reflexivity.
Qed.
End style_expander.

Lemma C3_witness :
  globalRecipe
    {| recipe := button_recipe; selectorGenerators := svg_generators;
       base := None;
       compoundVariants := Some
         [ {| variants := [("size", VUndefined); ("colour", VString "red")];
              style := {| properties := [("width", CSSString "16px")];
                          selectors := Some
                            [("&:hover", Some [("fill", CSSString "blue")])] |}
           |} ] |} []
  = (Normal tt, []).
Proof.
  apply (C3_empty_selector_entry_is_skipped
           button_recipe svg_generators None [] []).
  reflexivity.
Defined.

(** The state [toString] has no generator in the set and is registered
    all the same, under the selector that the inherited method returns:
    two registrations where one state has a generator and a block. *)
Lemma C4_counterexample :
  applyStyle svg_generators ".button_size_sm" inherited_states []
  = (Normal tt,
     [ (JString "[object Undefined]", [("fill", CSSString "blue")]);
       (JString ".button_size_sm:hover svg", [("fill", CSSString "red")]) ])
  ∧ properties inherited_states = []
  ∧ svg_generators !! "toString" = None
  ∧ length (filter (registers svg_generators)
              (default [] (selectors inherited_states))) = 1
  ∧ length (applyStyle svg_generators ".button_size_sm" inherited_states []).2
    = 2.
Proof. by split_and!. Qed.

Lemma C4_witness :
  applyStyle svg_generators ".button_size_sm"
    {| properties := [];
       selectors := Some
         [ ("&:hover", Some [("fill", CSSString "blue")]);
           ("&:focus", Some [("outline", CSSString "none")]);
           ("&:active", None) ] |} []
  = (Normal tt,
     [(JString ".button_size_sm:hover svg", [("fill", CSSString "blue")])]).
Proof.
  refine (proj1 (proj2 (proj2 (C4_no_properties_no_self_registration
            svg_generators ".button_size_sm"
            {| properties := [];
               selectors := Some
                 [ ("&:hover", Some [("fill", CSSString "blue")]);
                   ("&:focus", Some [("outline", CSSString "none")]);
                   ("&:active", None) ] |} [] eq_refl)) _)).
  by_evaluation.
Defined.

(** The states [toString] and [hasOwnProperty] have no generator in the
    set; the first is registered, the second makes [applyStyle] throw. *)
Lemma C6_counterexample :
  svg_generators !! "toString" = None
  ∧ applyStyle svg_generators ".button_size_sm" inherited_states []
    = (Normal tt,
       [ (JString "[object Undefined]", [("fill", CSSString "blue")]);
         (JString ".button_size_sm:hover svg", [("fill", CSSString "red")]) ])
  ∧ applyStyle svg_generators ".button_size_sm"
      {| properties := [];
         selectors := Some [("&:hover", Some [("fill", CSSString "red")])] |} []
    = (Normal tt,
       [(JString ".button_size_sm:hover svg", [("fill", CSSString "red")])])
  ∧ svg_generators !! "hasOwnProperty" = None
  ∧ applyStyle svg_generators ".button_size_sm" throwing_states []
    = (Throw (TypeError "Cannot convert undefined or null to object"), []).
Proof. by split_and!. Qed.

Lemma C6_witness :
  applyStyle svg_generators ".button_size_sm"
    {| properties := [("width", CSSString "16px")];
       selectors := Some
         [ ("&:focus", Some [("outline", CSSString "none")]);
           ("&:hover", Some [("fill", CSSString "blue")]) ] |} []
  = (Normal tt,
     [ (JString ".button_size_sm svg", [("width", CSSString "16px")]);
       (JString ".button_size_sm:hover svg", [("fill", CSSString "blue")]) ]).
Proof.
  refine (proj2 (C6_state_without_generator_is_skipped svg_generators
                   ".button_size_sm" [("width", CSSString "16px")] []
                   [("&:hover", Some [("fill", CSSString "blue")])]
                   "&:focus" (Some [("outline", CSSString "none")]) [] _ _)
            _ _).
  - reflexivity.
  - by_evaluation.
  - right. eexists. reflexivity.
  - by_evaluation.
Defined.

(** An expanded entry whose style block is empty, as the entries of the
    type tests are, leads to no call at all, where one call is counted for
    its "self" properties. *)
Lemma C7_counterexample :
  let options :=
    {| recipe := button_recipe; selectorGenerators := svg_generators;
       base := None; compoundVariants := Some [sized_without_style] |} in
  buildVariantSelector button_recipe (variants sized_without_style)
  = Normal ".button_size_sm"
  ∧ globalRecipe options [] = (Normal tt, [])
  ∧ length (globalRecipe options []).2
    ≠ spec_calls_per_entry sized_without_style.
Proof. by split_and!. Qed.

(** A state tag whose nested block is absent leads to no call either. *)
Example absent_state_block_is_not_registered :
  let options :=
    {| recipe := button_recipe; selectorGenerators := svg_generators;
       base := None; compoundVariants := Some [sized_with_absent_state] |} in
  globalRecipe options []
  = (Normal tt, [(JString ".button_size_sm svg", [("width", CSSString "16px")])])
  ∧ spec_calls_per_entry sized_with_absent_state = 2.
Proof. by split. Qed.

Lemma C7_witness :
  globalRecipe
    {| recipe := button_recipe; selectorGenerators := svg_generators;
       base := Some {| properties := [("pointerEvents", CSSString "none")];
                       selectors := None |};
       compoundVariants := Some [hover_only; sized_with_states; hover_only] |} []
  = (Normal tt,
     [ (JString ".button_base svg", [("pointerEvents", CSSString "none")]);
       (JString ".button_size_md:hover svg", []);
       (JString ".button_size_sm svg", [("width", CSSString "16px")]);
       (JString ".button_size_sm:hover svg", [("fill", CSSString "blue")]);
       (JString ".button_size_md:hover svg", []) ]).
Proof.
  etrans.
  - refine (proj1 (C7_calls_per_expanded_entry button_recipe svg_generators
                     (Some {| properties := [("pointerEvents", CSSString "none")];
                              selectors := None |})
                     [hover_only] [hover_only] sized_with_states
                     ".button_size_sm" []
                     [ (JString ".button_base svg",
                        [("pointerEvents", CSSString "none")]);
                       (JString ".button_size_md:hover svg", []) ]
                     _ _ _ _ _)).
    + reflexivity.
    + discriminate.
    + right. eexists. reflexivity.
    + by_evaluation.
    + reflexivity.
  - reflexivity.
Defined.

(** ** Further properties of buildVariantSelector *)

Lemma spec_concat_empty (fragments : list string) :
  Forall (λ fragment, fragment ≠ "") fragments →
  spec_concat fragments = "" → fragments = [].
Proof.
  intros Hall Hempty. destruct Hall as [|fragment fragments Hne _]; [done|].
  cbn in Hempty. by destruct fragment.
Qed.

Section selector_facts.
Context `{Host} (recipe : RuntimeFn.t).
Let table := RuntimeFn.variants (RuntimeFn.classNames recipe).

Lemma entry_fragments_dotted (variants : VariantSelection) fragments :
  entry_fragments table variants = Normal fragments →
  Forall (λ fragment, ∃ rest, fragment = "." +:+ rest) fragments.
Proof.
  revert fragments.
  induction variants as [|entry variants IH]; intros fragments.
  - by intros [= <-].
  - cbn. destruct (entry_fragment table entry) as [fragment|] eqn:Hentry;
      [cbn|done].
    destruct (entry_fragments table variants) as [more|]; [cbn|done].
    intros [= <-]. apply Forall_app. split; [|by apply IH].
    destruct fragment as [fragment|]; [|constructor].
    constructor; [|constructor].
    by apply (entry_fragment_not_empty recipe entry).
Qed.

Lemma entry_fragments_nil (variants : VariantSelection) :
  entry_fragments table variants = Normal []
  ↔ Forall (λ entry, entry_fragment table entry = Normal None) variants.
Proof.
  induction variants as [|entry variants IH]; [by split|].
  rewrite Forall_cons, <- IH. cbn.
  destruct (entry_fragment table entry) as [[fragment|]|]; cbn.
  - split; [|by intros [? _]].
    by destruct (entry_fragments table variants).
  - destruct (entry_fragments table variants) as [more|]; cbn.
    + split; [by intros [= ->]|by intros [_ [= ->]]].
    + split; [done|by intros [_ ?]].
  - split; [done|by intros [? _]].
Qed.

Lemma selector_empty (variants : VariantSelection) :
  buildVariantSelector recipe variants = Normal ""
  ↔ entry_fragments table variants = Normal [].
Proof.
  rewrite buildVariantSelector_fragments. fold table.
  destruct (entry_fragments table variants) as [fragments|] eqn:Hrun; cbn;
    [|done].
  split; [|by intros [= ->]]. intros [= Hempty]. f_equal.
  apply spec_concat_empty; [|done].
  eapply Forall_impl; [by apply (entry_fragments_dotted variants)|].
  by intros fragment [rest ->].
Qed.
End selector_facts.

Section selector_properties.
Context `{Host}.

(** X1. The selector of a choice written in two parts is the selector of
    the first part followed by the selector of the second; when a part
    throws, the whole throws the same error. *)
Theorem X1_selector_of_concatenated_choices
    (recipe : RuntimeFn.t) (first second : VariantSelection) :
  buildVariantSelector recipe (first ++ second)
  = s1 ← buildVariantSelector recipe first;
    s2 ← buildVariantSelector recipe second;
    Normal (s1 +:+ s2).
Proof.
  rewrite !buildVariantSelector_fragments, entry_fragments_app.
  destruct (entry_fragments _ first) as [fragments1|]; cbn; [|done].
  destruct (entry_fragments _ second) as [fragments2|]; cbn; [|done].
  by rewrite spec_concat_app.
Qed.

(** X2. The selector of a choice is empty exactly when each of its entries
    on its own gives the empty selector. *)
Theorem X2_selector_empty_iff_every_entry_empty
    (recipe : RuntimeFn.t) (variants : VariantSelection) :
  buildVariantSelector recipe variants = Normal ""
  ↔ Forall (λ entry, buildVariantSelector recipe [entry] = Normal "") variants.
Proof.
  set (table := RuntimeFn.variants (RuntimeFn.classNames recipe)).
  rewrite (Forall_iff _ variants
             (λ entry, entry_fragment table entry = Normal None)).
  - by rewrite selector_empty, entry_fragments_nil.
  - intros entry. rewrite selector_empty, entry_fragments_nil.
    split; [by intros ?%Forall_inv|by constructor].
Qed.

(** X3. A selector that [buildVariantSelector] returns is either empty or
    begins with a dot. *)
Theorem X3_selector_begins_with_dot
    (recipe : RuntimeFn.t) (variants : VariantSelection) (selector : string) :
  buildVariantSelector recipe variants = Normal selector →
  selector = "" ∨ ∃ rest, selector = "." +:+ rest.
Proof.
  rewrite buildVariantSelector_fragments.
  destruct (entry_fragments _ variants) as [fragments|] eqn:Hrun; cbn; [|done].
  intros [= <-]. apply entry_fragments_dotted in Hrun.
  destruct Hrun as [|fragment fragments [rest ->] _]; [by left|right].
  exists (rest +:+ spec_concat fragments). cbn. by rewrite <- append_assoc.
Qed.

(** X4. The selector of a choice depends only on the groups that the choice
    names: two recipes whose tables agree on these groups give the same
    selector, whatever their base classes and other groups are. *)
Theorem X4_selector_depends_on_named_groups
    (recipe1 recipe2 : RuntimeFn.t) (variants : VariantSelection) :
  Forall (λ entry,
    RuntimeFn.variants (RuntimeFn.classNames recipe1) !! entry.1
    = RuntimeFn.variants (RuntimeFn.classNames recipe2) !! entry.1) variants →
  buildVariantSelector recipe1 variants = buildVariantSelector recipe2 variants.
Proof.
  intros Hagree. rewrite !buildVariantSelector_fragments. f_equal.
  induction Hagree as [|entry entries Hentry _ IH]; [done|].
  cbn. rewrite IH. f_equal. unfold entry_fragment.
  by rewrite (get_property_agree _ _ _ Hentry).
Qed.
End selector_properties.

Lemma X3_witness :
  ".button_size_sm.button_disabled_true" = ""
  ∨ ∃ rest, ".button_size_sm.button_disabled_true" = "." +:+ rest.
Proof.
  apply (X3_selector_begins_with_dot button_recipe
           [("size", VString "sm"); ("disabled", VBool true)]).
  reflexivity.
Defined.

Lemma X4_witness :
  buildVariantSelector button_recipe
    [("size", VString "sm"); ("colour", VString "red")]
  = buildVariantSelector sizes_recipe
      [("size", VString "sm"); ("colour", VString "red")].
Proof.
  apply X4_selector_depends_on_named_groups.
  constructor; [reflexivity|]. constructor; [reflexivity|constructor].
Defined.

(** ** Further properties of globalRecipe *)

(** Entries that run no code may be filtered out of a loop. *)
Lemma forEach_omap {A B} (select : A → option B) (xs : list A)
    (body : A → JS unit) (body' : B → JS unit) log :
  Forall (λ x, ∀ log', body x log'
                       = match select x with
                         | Some y => body' y log'
                         | None => (Normal tt, log')
                         end) xs →
  forEach xs body log = forEach (omap select xs) body' log.
Proof.
  intros Hbody. revert log.
  induction Hbody as [|x xs Hx _ IH]; intros log; [done|].
  cbn [forEach omap list_omap]. unfold mbind at 1, JS_bind at 1.
  rewrite Hx. destruct (select x) as [y|]; [|apply IH].
  cbn [forEach]. unfold mbind, JS_bind.
  destruct (body' y log) as [[[]|e] log']; [apply IH|done].
Qed.

(** When the selector of every compound entry is built without an error,
    an invocation is the loop of [applyStyle] over its applied blocks. *)
Lemma globalRecipe_as_blocks `{Host} (options : GlobalRecipeOptions) log :
  Forall (λ entry,
    completes (buildVariantSelector (recipe options) (variants entry)))
    (default [] (compoundVariants options)) →
  globalRecipe options log
  = forEach (applied_blocks options)
      (λ block, applyStyle (selectorGenerators options) block.1 block.2) log.
Proof.
  destruct options as [r generators base_style compounds].
  unfold globalRecipe, applied_blocks.
  cbn [recipe selectorGenerators base compoundVariants].
  intros Hbuilt. rewrite forEach_app. apply JS_bind_ext_l.
  - intros log'. destruct base_style as [style|]; cbn; [|done].
    unfold mbind, JS_bind.
    by destruct (applyStyle _ _ _ _) as [[[]|e] log''].
  - intros [] log'. destruct compounds as [entries|]; [|done].
    apply forEach_omap. cbn [from_option id] in Hbuilt.
    eapply Forall_impl; [exact Hbuilt|].
    intros entry [selector Hselector] log''. cbn beta.
    unfold mbind, JS_bind, lift. rewrite Hselector.
    by destruct (truthy selector).
Qed.

Lemma run_steps_complete (steps : list Step) (calls : list Registration) :
  (run_steps steps).2 = None → Normal calls ∈ steps →
  calls ⊆ (run_steps steps).1.
Proof.
  induction steps as [|[made|e] steps IH]; intros Hdone Hin.
  - by apply elem_of_nil in Hin.
  - cbn in *. destruct (run_steps steps) as [more error]. cbn in *.
    apply elem_of_cons in Hin as [[= ->]|Hin].
    + intros call Hcall. apply elem_of_app. by left.
    + intros call Hcall. apply elem_of_app. right. by apply IH.
  - done.
Qed.

Section applied_blocks_facts.
Context (generators : SelectorGenerators).
Let apply_block (block : string * StyleRuleWithSelectors) : JS unit :=
  applyStyle generators block.1 block.2.
Let block_registrations (block : string * StyleRuleWithSelectors)
  : list Registration :=
  spec_block generators block.1 block.2.
Let own_states (block : string * StyleRuleWithSelectors) : Prop :=
  Forall (no_inherited_state generators) (default [] (selectors block.2)).

Lemma blocks_normal blocks log :
  Forall own_states blocks →
  is_Some (generators !! "&") ∨ Forall (λ block, properties block.2 = []) blocks →
  forEach blocks apply_block log
  = (Normal tt, log ++ flat_map block_registrations blocks).
Proof.
  intros Hown Hok. revert log.
  induction Hown as [|block blocks Hblock _ IH]; intros log.
  { cbn. by rewrite app_nil_r. }
  cbn [forEach flat_map]. erewrite JS_bind_normal; last first.
  { apply applyStyle_own; [|done].
    destruct Hok as [?|Hall]; [by right|left]. by inversion Hall. }
  rewrite IH, <- app_assoc; [done|].
  destruct Hok as [?|Hall]; [by left|right]. by inversion Hall.
Qed.

Lemma blocks_throw blocks log :
  Forall own_states blocks →
  generators !! "&" = None →
  Exists (λ block, properties block.2 ≠ []) blocks →
  (forEach blocks apply_block log).1 = Throw (TypeError "is not a function").
Proof.
  intros Hown Hself Hsome. revert log.
  induction Hsome as [block blocks Hprops|block blocks _ IH]; intros log.
  - cbn [forEach]. by erewrite JS_bind_throw by by apply applyStyle_throw.
  - cbn [forEach]. unfold mbind, JS_bind.
    apply Forall_cons in Hown as [Hblock Hown].
    destruct (decide (properties block.2 = [])) as [Hnone|Hprops].
    + unfold apply_block at 1. rewrite applyStyle_own by (done || by left).
      by apply IH.
    + unfold apply_block at 1. by rewrite applyStyle_throw.
Qed.

Lemma blocks_prefix blocks log :
  Forall own_states blocks →
  ∃ completion calls,
    forEach blocks apply_block log = (completion, log ++ calls)
    ∧ calls `prefix_of` flat_map block_registrations blocks.
Proof.
  intros Hown. revert log.
  induction Hown as [|block blocks Hblock _ IH]; intros log.
  { exists (Normal tt), []. cbn. by rewrite app_nil_r. }
  cbn [forEach flat_map].
  destruct (decide (properties block.2 = [] ∨ is_Some (generators !! "&")))
    as [Hok|Hno].
  - erewrite JS_bind_normal by by apply applyStyle_own.
    destruct (IH (log ++ spec_block generators block.1 block.2))
      as (completion & calls & -> & Hprefix).
    exists completion, (block_registrations block ++ calls).
    split; [by rewrite <- app_assoc|]. by apply prefix_app.
  - erewrite JS_bind_throw; last first.
    { apply applyStyle_throw.
      - intros Hnone. apply Hno. by left.
      - apply eq_None_not_Some. intros Hself. apply Hno. by right. }
    eexists _, []. split; [by rewrite app_nil_r|apply prefix_nil].
Qed.
End applied_blocks_facts.

Section invocation_properties.
Context `{Host}.

(** X5. An invocation only appends to the registry: started from any log
    of earlier calls, it ends as it does from the empty log and adds the
    same calls behind the earlier ones, which it leaves as they are. *)
Theorem X5_invocation_independent_of_earlier_calls
    (options : GlobalRecipeOptions) (log : list Registration) :
  globalRecipe options log
  = ((globalRecipe options []).1, log ++ (globalRecipe options []).2).
Proof. apply framed_globalRecipe. Qed.

(** X6. An invocation with the compound array [first ++ second] does what
    two invocations in sequence do: one with the base style and [first],
    then one without base style and with [second]. *)
Theorem X6_invocation_splits_at_compound_array
    (r : RuntimeFn.t) (generators : SelectorGenerators)
    (base_style : option StyleRuleWithSelectors)
    (first second : list CompoundVariant) (log : list Registration) :
  globalRecipe {| recipe := r; selectorGenerators := generators;
                  base := base_style;
                  compoundVariants := Some (first ++ second) |} log
  = (globalRecipe {| recipe := r; selectorGenerators := generators;
                     base := base_style; compoundVariants := Some first |};;
     globalRecipe {| recipe := r; selectorGenerators := generators;
                     base := None; compoundVariants := Some second |}) log.
Proof.
  unfold globalRecipe. cbn [recipe selectorGenerators base compoundVariants].
  match goal with |- (?m ≫= _) log = _ => generalize m end.
  intros m. unfold mbind, JS_bind.
  destruct (m log) as [[[]|e] log1]; [|done].
  rewrite forEach_app. unfold mbind, JS_bind.
  by destruct (forEach first _ log1) as [[[]|e] log2].
Qed.

(** X7. When the selector of every compound entry is built without an
    error and no state key of an applied block that the generator set
    lacks is the name of a property of [Object.prototype], an invocation
    completes exactly when the ["&"] generator is defined or no block it
    applies has a top-level property; otherwise it throws the [TypeError]
    of calling [undefined]. *)
Theorem X7_invocation_completes_iff
    (options : GlobalRecipeOptions) (log : list Registration) :
  Forall (λ entry,
    completes (buildVariantSelector (recipe options) (variants entry)))
    (default [] (compoundVariants options)) →
  Forall (λ block,
    Forall (no_inherited_state (selectorGenerators options))
      (default [] (selectors block.2))) (applied_blocks options) →
  let completion := (globalRecipe options log).1 in
  (completion = Normal tt
   ↔ is_Some (selectorGenerators options !! "&")
     ∨ Forall (λ block, properties block.2 = []) (applied_blocks options))
  ∧ (completion = Normal tt
     ∨ completion = Throw (TypeError "is not a function")).
Proof.
  intros Hbuilt Hown completion. subst completion.
  rewrite globalRecipe_as_blocks by done.
  set (generators := selectorGenerators options) in *.
  set (blocks := applied_blocks options) in *.
  destruct (decide (is_Some (generators !! "&")
                    ∨ Forall (λ block, properties block.2 = []) blocks))
    as [Hok|Hno].
  - rewrite (blocks_normal generators blocks log Hown Hok). cbn.
    by split; [|left].
  - assert (Hthrow : (forEach blocks
        (λ block, applyStyle generators block.1 block.2) log).1
        = Throw (TypeError "is not a function")).
    { apply blocks_throw; [done|..].
      - apply eq_None_not_Some. intros Hself. apply Hno. by left.
      - apply (not_Forall_Exists _ _). intros Hall. apply Hno. by right. }
    rewrite Hthrow. split; [|by right]. split; [done|]. intros Hok. done.
Qed.

(** X8. Without the ["&"] generator, a base style with a top-level property
    makes the invocation throw at once: nothing is registered and no
    compound entry is processed. *)
Theorem X8_base_without_self_generator_throws
    (r : RuntimeFn.t) (generators : SelectorGenerators)
    (style : StyleRuleWithSelectors)
    (compounds : option (list CompoundVariant)) (log : list Registration) :
  generators !! "&" = None →
  properties style ≠ [] →
  globalRecipe {| recipe := r; selectorGenerators := generators;
                  base := Some style; compoundVariants := compounds |} log
  = (Throw (TypeError "is not a function"), log).
Proof.
  intros Hself Hprops. unfold globalRecipe.
  cbn [recipe selectorGenerators base compoundVariants].
  by erewrite JS_bind_throw by by apply applyStyle_throw.
Qed.

(** X9. When the selector of every compound entry is built without an
    error and no state key of an applied block that the generator set
    lacks is the name of a property of [Object.prototype], every call in
    the registry after an invocation was there before or comes from an
    applied block: its selector is the string that a generator of the set
    returns for the block's class selector, and its rule is either the
    block's non-empty top-level properties, under the ["&"] generator, or
    a nested block of the block, under the generator of its state. *)
Theorem X9_calls_come_from_applied_blocks
    (options : GlobalRecipeOptions) (log : list Registration)
    (selector : JSValue) (rule : GlobalStyleRule) :
  Forall (λ entry,
    completes (buildVariantSelector (recipe options) (variants entry)))
    (default [] (compoundVariants options)) →
  Forall (λ block,
    Forall (no_inherited_state (selectorGenerators options))
      (default [] (selectors block.2))) (applied_blocks options) →
  (selector, rule) ∈ (globalRecipe options log).2 →
  (selector, rule) ∈ log
  ∨ ∃ classSelector style key generator,
      (classSelector, style) ∈ applied_blocks options
      ∧ selectorGenerators options !! key = Some generator
      ∧ selector = JString (generator classSelector)
      ∧ ((key = "&" ∧ rule = properties style ∧ rule ≠ [])
         ∨ (∃ states, selectors style = Some states
                      ∧ (key, Some rule) ∈ states)).
Proof.
  intros Hbuilt Hown. rewrite globalRecipe_as_blocks by done.
  set (generators := selectorGenerators options) in *.
  destruct (blocks_prefix generators (applied_blocks options) log Hown)
    as (c & l & Hrun & Hprefix).
  cbv zeta in Hrun. rewrite Hrun. cbn [snd]. intros Hin.
  apply elem_of_app in Hin as [Hin|Hin]; [by left|right].
  eapply elem_of_prefix in Hin; [|exact Hprefix].
  apply list_elem_of_In, in_flat_map in Hin
    as ([classSelector style] & Hblock & Hin).
  apply list_elem_of_In in Hblock, Hin. cbn [fst snd] in Hin.
  unfold spec_block in Hin. apply elem_of_app in Hin as [Hself|Hstate].
  - unfold spec_self_registration in Hself.
    destruct (decide (properties style = [])) as [|Hprops];
      [by inversion Hself|].
    destruct (generators !! "&") as [g|] eqn:Hg; [|by inversion Hself].
    cbn in Hself. apply list_elem_of_singleton in Hself as [= -> ->].
    exists classSelector, style, "&", g. split_and!; [done..|]. by left.
  - unfold spec_state_registrations in Hstate.
    apply list_elem_of_omap in Hstate as ([key nested] & Hentry & Hreg).
    unfold spec_state_registration in Hreg. cbn [fst snd] in Hreg.
    destruct (generators !! key) as [g|] eqn:Hg; [|done].
    destruct nested as [nested|]; [|done]. cbn in Hreg.
    injection Hreg as <- <-.
    exists classSelector, style, key, g. split_and!; [done..|]. right.
    destruct (selectors style) as [states|]; [|by inversion Hentry].
    by exists states.
Qed.

(** X11. An invocation makes at most one call per applied block and one
    more per state of the block's nested mapping. *)
Theorem X11_number_of_calls_is_bounded
    (options : GlobalRecipeOptions) (log : list Registration) :
  length (globalRecipe options log).2
  ≤ length log
    + sum_list_with
        (λ block, 1 + length (default [] (selectors block.2)))
        (applied_blocks options).
Proof.
  rewrite globalRecipe_steps. unfold outcome. cbn [snd]. rewrite length_app.
  apply Nat.add_le_mono_l.
  destruct options as [r generators base_style compounds].
  unfold invocation_steps, applied_blocks.
  cbn [recipe selectorGenerators base compoundVariants].
  etrans; [apply length_run_steps_app|]. rewrite sum_list_with_app.
  apply Nat.add_le_mono.
  - destruct base_style as [style|]; cbn; [|lia].
    pose proof (length_run_block_steps generators
      ("." +:+ RuntimeFn.base (RuntimeFn.classNames r)) style) as Hblock.
    unfold block_steps in Hblock. cbn in Hblock. lia.
  - induction (default [] compounds) as [|entry entries IH]; [done|].
    cbn [flat_map omap list_omap]. etrans; [apply length_run_steps_app|].
    pose proof (length_run_entry_steps r generators entry) as Hentry.
    destruct (buildVariantSelector r (variants entry)) as [selector|];
      [destruct (truthy selector)|]; cbn [sum_list_with snd]; lia.
Qed.

(** X12. Nothing is deduplicated: an invocation that completes, run a
    second time, registers the same calls once more, in the same order. *)
Theorem X12_second_invocation_registers_again
    (options : GlobalRecipeOptions) (log calls : list Registration) :
  globalRecipe options [] = (Normal tt, calls) →
  (globalRecipe options;; globalRecipe options) log
  = (Normal tt, log ++ calls ++ calls).
Proof.
  intros Hrun.
  assert (Hfrom : ∀ log', globalRecipe options log' = (Normal tt, log' ++ calls)).
  { intros log'. by rewrite framed_globalRecipe, Hrun. }
  erewrite JS_bind_normal by apply Hfrom.
  by rewrite Hfrom, <- app_assoc.
Qed.

(** X14. Nothing is rolled back when an invocation throws: when the
    selector of every compound entry is built without an error and there
    is no ["&"] generator, the states of the applied blocks that precede
    the first block with a top-level property stay registered (no key of
    theirs that the generator set lacks being the name of a property of
    [Object.prototype]), and nothing of that block or of a later one is. *)
Theorem X14_calls_before_a_throw_remain
    (options : GlobalRecipeOptions) (log : list Registration)
    (before after : list (string * StyleRuleWithSelectors))
    (block : string * StyleRuleWithSelectors) :
  selectorGenerators options !! "&" = None →
  Forall (λ entry,
    completes (buildVariantSelector (recipe options) (variants entry)))
    (default [] (compoundVariants options)) →
  applied_blocks options = before ++ block :: after →
  Forall (λ earlier, properties earlier.2 = []) before →
  Forall (λ earlier,
    Forall (no_inherited_state (selectorGenerators options))
      (default [] (selectors earlier.2))) before →
  properties block.2 ≠ [] →
  globalRecipe options log
  = (Throw (TypeError "is not a function"),
     log ++ flat_map
              (λ earlier, spec_state_registrations
                            (selectorGenerators options) earlier.1 earlier.2)
              before).
Proof.
  intros Hself Hbuilt Hblocks Hbefore Hown Hprops.
  rewrite globalRecipe_as_blocks, Hblocks, forEach_app by done.
  erewrite JS_bind_normal; last first.
  { apply blocks_normal; [done|by right]. }
  cbn [forEach].
  rewrite (JS_bind_throw _ _ _ _ _ (applyStyle_throw _ _ _ _ Hprops Hself)).
  do 2 f_equal. clear Hblocks Hown.
  induction Hbefore as [|earlier before Hnone _ IH]; [done|].
  cbn [flat_map]. rewrite IH. f_equal.
  unfold spec_block, spec_self_registration. by rewrite decide_True.
Qed.
End invocation_properties.

(** X10. When [applyStyle] completes, every state of the nested mapping
    that has a generator and a present nested block is registered with that
    generator's selector and that block, be the block empty or the state
    the ["&"] key itself. *)
Theorem X10_present_states_are_registered
    (generators : SelectorGenerators) (classSelector : string)
    (style : StyleRuleWithSelectors) (log : list Registration)
    (states : list (string * option GlobalStyleRule))
    (key : string) (generator : string → string) (nested : GlobalStyleRule) :
  (applyStyle generators classSelector style log).1 = Normal tt →
  selectors style = Some states →
  (key, Some nested) ∈ states →
  generators !! key = Some generator →
  (JString (generator classSelector), nested)
  ∈ (applyStyle generators classSelector style log).2.
Proof.
  rewrite applyStyle_run. unfold outcome. cbn [fst snd].
  intros Hdone Hstates Hin Hgen. apply elem_of_app. right.
  apply (run_steps_complete _ [(JString (generator classSelector), nested)]).
  - by destruct (run_steps _).2.
  - unfold block_steps. rewrite Hstates. cbn [from_option id].
    apply elem_of_cons. right. apply list_elem_of_fmap.
    exists (key, Some nested). split; [|done].
    unfold state_step. cbn [fst snd].
    by rewrite (get_property_own _ _ _ Hgen).
  - left.
Qed.

(** X13. The states of a nested mapping are registered in the order of the
    mapping: a block whose mapping is [first ++ second] does what the block
    with [first] does, followed by a block without top-level properties
    and with [second]. *)
Theorem X13_states_registered_in_mapping_order
    (generators : SelectorGenerators) (classSelector : string)
    (props : GlobalStyleRule)
    (first second : list (string * option GlobalStyleRule))
    (log : list Registration) :
  applyStyle generators classSelector
    {| properties := props; selectors := Some (first ++ second) |} log
  = (applyStyle generators classSelector
       {| properties := props; selectors := Some first |};;
     applyStyle generators classSelector
       {| properties := []; selectors := Some second |}) log.
Proof.
  rewrite applyStyle_run. unfold block_steps.
  cbn [properties selectors from_option id].
  rewrite fmap_app, app_comm_cons, outcome_run_steps_app.
  apply JS_bind_ext_l.
  - intros log'. by rewrite applyStyle_run.
  - intros _ log'. rewrite applyStyle_run. unfold block_steps.
    cbn [properties selectors from_option id].
    by rewrite self_step_none, run_steps_skip.
Qed.

(** X15. A state whose nested block is [undefined] is skipped: [applyStyle]
    runs as on the block without that state. *)
Theorem X15_state_without_block_is_skipped
    (generators : SelectorGenerators) (classSelector : string)
    (props : GlobalStyleRule)
    (pre post : list (string * option GlobalStyleRule)) (key : string)
    (log : list Registration) :
  applyStyle generators classSelector
    {| properties := props; selectors := Some (pre ++ (key, None) :: post) |}
    log
  = applyStyle generators classSelector
      {| properties := props; selectors := Some (pre ++ post) |} log.
Proof.
  rewrite !applyStyle_run. unfold block_steps.
  cbn [properties selectors from_option id].
  rewrite !fmap_app, fmap_cons.
  change (state_step generators classSelector (key, None)) with (Normal [] : Step).
  by rewrite !app_comm_cons, !run_steps_app, run_steps_skip.
Qed.

(** X16. A call of [applyStyle] reads the generator set only at ["&"] and
    at the states its block names: two sets that agree there lead to the
    same run, so that adding generators changes nothing for the blocks
    written before. *)
Theorem X16_only_named_generators_are_read
    (generators1 generators2 : SelectorGenerators) (classSelector : string)
    (style : StyleRuleWithSelectors) (log : list Registration) :
  generators1 !! "&" = generators2 !! "&" →
  Forall (λ state, generators1 !! state.1 = generators2 !! state.1)
    (default [] (selectors style)) →
  applyStyle generators1 classSelector style log
  = applyStyle generators2 classSelector style log.
Proof.
  intros Hself Hstates. rewrite !applyStyle_run. unfold block_steps.
  do 3 f_equal.
  - unfold self_step. by rewrite (get_property_agree _ _ _ Hself).
  - induction Hstates as [|state states Hstate _ IH]; [done|].
    cbn [fmap list_fmap]. rewrite <- IH. f_equal.
    unfold state_step. by rewrite (get_property_agree _ _ _ Hstate).
Qed.

Lemma X7_witness :
  let completion := (globalRecipe sized_options []).1 in
  (completion = Normal tt
   ↔ is_Some (selectorGenerators sized_options !! "&")
     ∨ Forall (λ block, properties block.2 = []) (applied_blocks sized_options))
  ∧ (completion = Normal tt
     ∨ completion = Throw (TypeError "is not a function")).
Proof.
  apply (X7_invocation_completes_iff sized_options []).
  - repeat (constructor; [by eexists|]). constructor.
  - by_evaluation.
Defined.

Lemma X8_witness :
  globalRecipe
    {| recipe := button_recipe; selectorGenerators := hover_generators;
       base := Some {| properties := [("fill", CSSString "red")];
                       selectors := Some
                         [("&:hover", Some [("fill", CSSString "blue")])] |};
       compoundVariants := Some [sized_with_states] |} []
  = (Throw (TypeError "is not a function"), []).
Proof.
  apply X8_base_without_self_generator_throws; [reflexivity|discriminate].
Defined.

Lemma X9_witness :
  let rule : GlobalStyleRule := [] in
  (JString ".button_size_md:hover svg", rule) ∈ ([] : list Registration)
  ∨ ∃ classSelector style key generator,
      (classSelector, style) ∈ applied_blocks sized_options
      ∧ selectorGenerators sized_options !! key = Some generator
      ∧ JString ".button_size_md:hover svg" = JString (generator classSelector)
      ∧ ((key = "&" ∧ rule = properties style ∧ rule ≠ [])
         ∨ (∃ states, selectors style = Some states
                      ∧ (key, Some rule) ∈ states)).
Proof.
  apply (X9_calls_come_from_applied_blocks sized_options []).
  - repeat (constructor; [by eexists|]). constructor.
  - by_evaluation.
  - apply list_elem_of_In. vm_compute.
    repeat ((left; reflexivity) || right).
Defined.

Lemma X10_witness :
  (JString ".button_size_md:hover svg", [])
  ∈ (applyStyle svg_generators ".button_size_md" (style hover_only) []).2.
Proof.
  apply (X10_present_states_are_registered svg_generators ".button_size_md"
           (style hover_only) [] [("&:hover", Some [])] "&:hover"
           (λ v, v +:+ ":hover svg") []).
  - reflexivity.
  - reflexivity.
  - left.
  - reflexivity.
Defined.

Lemma X12_witness :
  (globalRecipe sized_options;; globalRecipe sized_options) []
  = (Normal tt,
     [ (JString ".button_base svg", [("pointerEvents", CSSString "none")]);
       (JString ".button_size_sm svg", [("width", CSSString "16px")]);
       (JString ".button_size_sm:hover svg", [("fill", CSSString "blue")]);
       (JString ".button_size_md:hover svg", []);
       (JString ".button_base svg", [("pointerEvents", CSSString "none")]);
       (JString ".button_size_sm svg", [("width", CSSString "16px")]);
       (JString ".button_size_sm:hover svg", [("fill", CSSString "blue")]);
       (JString ".button_size_md:hover svg", []) ]).
Proof.
  refine (X12_second_invocation_registers_again sized_options []
            [ (JString ".button_base svg",
               [("pointerEvents", CSSString "none")]);
              (JString ".button_size_sm svg", [("width", CSSString "16px")]);
              (JString ".button_size_sm:hover svg",
               [("fill", CSSString "blue")]);
              (JString ".button_size_md:hover svg", []) ] _).
  reflexivity.
Defined.

Lemma X14_witness :
  globalRecipe hover_first_options []
  = (Throw (TypeError "is not a function"),
     [(JString ".button_size_md:hover svg", [])]).
Proof.
  refine (X14_calls_before_a_throw_remain hover_first_options []
            [(".button_size_md", style hover_only)] []
            (".button_size_sm", style sized_with_states) _ _ _ _ _ _).
  - reflexivity.
  - repeat (constructor; [by eexists|]). constructor.
  - reflexivity.
  - constructor; [reflexivity|constructor].
  - by_evaluation.
  - discriminate.
Defined.

Lemma X16_witness :
  applyStyle svg_generators ".button_size_sm" (style sized_with_states) []
  = applyStyle active_generators ".button_size_sm" (style sized_with_states) [].
Proof.
  apply X16_only_named_generators_are_read; [reflexivity|].
  repeat (constructor; [reflexivity|]). constructor.
Defined.

(** ** Reads that reach Object.prototype *)

(** X17. A group name that the table lacks is still read from
    [Object.prototype]: with no group [constructor] in the table, the
    choice [{constructor: "name"}] gives the selector [".Object"], the
    name of the inherited constructor. *)
Theorem X17_inherited_group_is_read `{Host} (recipe : RuntimeFn.t) :
  RuntimeFn.variants (RuntimeFn.classNames recipe) !! "constructor" = None →
  buildVariantSelector recipe [("constructor", VString "name")]
  = Normal ".Object".
Proof.
  intros Hgroup. unfold buildVariantSelector. cbn [for_of].
  rewrite decide_False by done. unfold get_property. by rewrite Hgroup.
Qed.

(** X18. A state key that the generator set lacks is still read from
    [Object.prototype]: the state [toString] is registered under the
    selector ["[object Undefined]"] that the inherited method returns. *)
Theorem X18_inherited_state_is_registered
    (generators : SelectorGenerators) (classSelector : string)
    (rule : GlobalStyleRule) (log : list Registration) :
  generators !! "toString" = None →
  applyStyle generators classSelector
    {| properties := []; selectors := Some [("toString", Some rule)] |} log
  = (Normal tt, log ++ [(JString "[object Undefined]", rule)]).
Proof.
  intros Hgen. unfold applyStyle, get_property.
  cbn [properties selectors forEach]. by rewrite Hgen.
Qed.

(** X19. The state [hasOwnProperty], when the generator set lacks it,
    makes [applyStyle] throw: the inherited method is called without an
    object, and nothing is registered for the state. *)
Theorem X19_inherited_state_throws
    (generators : SelectorGenerators) (classSelector : string)
    (rule : GlobalStyleRule) (log : list Registration) :
  generators !! "hasOwnProperty" = None →
  applyStyle generators classSelector
    {| properties := []; selectors := Some [("hasOwnProperty", Some rule)] |}
    log
  = (Throw (TypeError "Cannot convert undefined or null to object"), log).
Proof.
  intros Hgen. unfold applyStyle, get_property.
  cbn [properties selectors forEach]. by rewrite Hgen.
Qed.

Lemma X17_witness :
  buildVariantSelector button_recipe [("constructor", VString "name")]
  = Normal ".Object".
Proof. apply X17_inherited_group_is_read. reflexivity. Defined.

Lemma X18_witness :
  applyStyle svg_generators ".button_size_sm"
    {| properties := [];
       selectors := Some [("toString", Some [("fill", CSSString "blue")])] |} []
  = (Normal tt, [(JString "[object Undefined]", [("fill", CSSString "blue")])]).
Proof.
  apply (X18_inherited_state_is_registered svg_generators ".button_size_sm"
           [("fill", CSSString "blue")] []).
  reflexivity.
Defined.

Lemma X19_witness :
  applyStyle svg_generators ".button_size_sm"
    {| properties := [];
       selectors := Some
         [("hasOwnProperty", Some [("fill", CSSString "blue")])] |} []
  = (Throw (TypeError "Cannot convert undefined or null to object"), []).
Proof.
  apply (X19_inherited_state_throws svg_generators ".button_size_sm"
           [("fill", CSSString "blue")] []).
  reflexivity.
Defined.
